(** * bittensor core server: call envelope, admission control, backward
      dispatcher and epoch loop

    A shallow embedding of
    - [bittensor/_synapse/text_seq2seq/call.py] (module [Call]) and
    - [bittensor/_neuron/text/core_server/run.py] (module [Run]).

    Python objects are maps from attribute names to values, Python
    exceptions are values of [Py.exn] carried by a state-and-error monad,
    and floating point numbers are idealised as rationals. *)

From stdpp Require Import gmap strings list fin_maps numbers.
From Stdlib Require Import ZArith QArith Lia.

Local Open Scope Z_scope.
Local Open Scope string_scope.

(** ** Python runtime: exceptions and the state/error monad *)

Module Py.

(** The classes under [Exception] that the two source files can meet. *)
Inductive exn_kind : Set :=
| Exception
| AttributeError
| UnboundLocalError
| ZeroDivisionError
| IndexError
| ValueError
| RuntimeError.

(** An exception instance; [str] is what [str(e)] returns. *)
Record exn : Set := Exn { kind : exn_kind; str : string }.

Inductive result (A : Type) : Type :=
| Ok (a : A)
| Raise (e : exn).
Arguments Ok {A} a.
Arguments Raise {A} e.

(** A statement over a mutable store [S]: it returns or raises, and the
    mutations made before a raise stay in the store. *)
Definition M (S A : Type) : Type := S -> result A * S.

Definition ret {S A} (a : A) : M S A := fun s => (Ok a, s).

Definition bind {S A B} (c : M S A) (k : A -> M S B) : M S B :=
  fun s =>
    match c s with
    | (Ok a, s') => k a s'
    | (Raise e, s') => (Raise e, s')
    end.

Definition raise {S A} (e : exn) : M S A := fun s => (Raise e, s).

Definition get {S} : M S S := fun s => (Ok s, s).

Definition modify {S} (f : S -> S) : M S unit := fun s => (Ok tt, f s).

(** [try: body except Exception as e: handler(e)] *)
Definition try_except {S A} (body : M S A) (handler : exn -> M S A) : M S A :=
  fun s =>
    match body s with
    | (Ok a, s') => (Ok a, s')
    | (Raise e, s') => handler e s'
    end.

(** Lifting a pure computation that may raise. *)
Definition lift {S A} (r : result A) : M S A := fun s => (r, s).

(** [l[i]] on a sequence. *)
Definition getitem {S A} (l : list A) (i : nat) : M S A :=
  match l !! i with
  | Some a => ret a
  | None => raise (Exn IndexError "index out of range")
  end.

(** [a and b] on objects: [a] when [a] is falsy, otherwise [b]. *)
Definition and_ {A} (truthy : A -> bool) (a b : A) : A :=
  if truthy a then b else a.

End Py.

Notation "'let*' x := c1 'in' c2" := (Py.bind c1 (fun x => c2))
  (at level 10, x name, c1 at level 100, c2 at level 200, only parsing).
Notation "c1 ;;; c2" := (Py.bind c1 (fun _ => c2))
  (at level 100, c2 at level 200, only parsing, right associativity).

(** Return codes of [bittensor.proto.ReturnCode] named by the sources; every
    other code of the wire enum is [OtherCode n]. *)
Inductive ReturnCode : Set :=
| Success
| NotImplemented
| UnknownException
| OtherCode (n : Z).

Global Instance ReturnCode_eq_dec : EqDecision ReturnCode.
Proof. solve_decision. Defined.

(** ** [bittensor/_synapse/text_seq2seq/call.py] *)

Module Call.

(** A torch tensor: its shape and its elements in row-major order. *)
Record tensor : Type := Tensor { shape : list nat; data : list Z }.

(** Values held by attributes and protobuf fields. [VEnum] is a member of a
    protobuf enum such as [bittensor.proto.Serializer]. *)
Inductive value : Type :=
| VNone
| VBool (b : bool)
| VInt (n : Z)
| VFloat (q : Q)
| VEnum (n : Z)
| VTensor (t : tensor).

(** What [call.py] imports and does not define: the serializer factory with
    the serializers it returns, and the base class [dendrite.ForwardCall],
    whose initialiser receives the timeout alone (line 81). *)
Class Bittensor : Type := {
  codec : Type;
  proto_tensor : Type;
  (** [dendrite.ForwardCall.__init__( self, timeout = v )]: the instance
      dictionary it leaves. *)
  ForwardCall_init : value -> gmap string value -> gmap string value;
  (** [bittensor.serializer( serializer_type = v )] *)
  bittensor_serializer : value -> Py.result codec;
  (** [c.serialize( v, from_type = TORCH )] *)
  serialize : codec -> value -> Py.result proto_tensor;
  (** [c.deserialize( p, to_type = TORCH )] *)
  deserialize : codec -> proto_tensor -> Py.result value
}.

(** [bittensor.ForwardTextSeq2SeqResponse], as far as the file reads it. *)
Record ForwardTextSeq2SeqResponse `{Bittensor} : Type := {
  return_code : ReturnCode;
  message : string;
  serialized_generations : proto_tensor
}.

(** [bittensor.ForwardTextSeq2SeqRequest], with the keywords of the
    constructor call at lines 144-162. *)
Record ForwardTextSeq2SeqRequest `{Bittensor} : Type := {
  serialized_text_prompt : proto_tensor;
  req_text_prompt_serializer_type : value;
  req_generations_serializer_type : value;
  req_topk : value;
  req_num_to_generate : value;
  req_num_beams : value;
  req_no_repeat_ngram_size : value;
  req_early_stopping : value;
  req_num_return_sequences : value;
  req_do_sample : value;
  req_top_p : value;
  req_temperature : value;
  req_repetition_penalty : value;
  req_length_penalty : value;
  req_max_time : value;
  req_num_beam_groups : value;
  req_timeout : value
}.

(** Calls made on the serializer interface, in program order. *)
Inductive call_event `{Bittensor} : Type :=
| CallSerializer (serializer_type : value)
| CallSerialize (c : codec) (v : value)
| CallDeserialize (c : codec) (p : proto_tensor).

(** The store of a method call: the instance dictionary of [self] and the
    calls made so far. *)
Record call_state `{Bittensor} : Type := {
  self : gmap string value;
  calls : list call_event
}.

(** The arguments of [__init__]; [default_args] gives lines 27-42. *)
Record init_args : Type := {
  text_prompt : value;
  timeout : value;
  topk : value;
  num_to_generate : value;
  num_beams : value;
  no_repeat_ngram_size : value;
  early_stopping : value;
  num_return_sequences : value;
  do_sample : value;
  top_p : value;
  temperature : value;
  repetition_penalty : value;
  length_penalty : value;
  max_time : value;
  num_beam_groups : value;
  text_prompt_serializer_type : value;
  generations_serializer_type : value
}.

(** [bittensor.proto.Serializer.MSGPACK] *)
Definition MSGPACK : value := VEnum 0.

Definition default_args (blocktime : Q) (prompt : value) : init_args :=
  {| text_prompt := prompt;
     timeout := VFloat blocktime;
     topk := VInt 50;
     num_to_generate := VInt 256;
     num_beams := VInt 5;
     no_repeat_ngram_size := VInt 2;
     early_stopping := VBool false;
     num_return_sequences := VInt 1;
     do_sample := VBool false;
     top_p := VFloat (95 # 100);
     temperature := VFloat 1;
     repetition_penalty := VFloat 1;
     length_penalty := VFloat 1;
     max_time := VFloat 150;
     num_beam_groups := VInt 1;
     text_prompt_serializer_type := MSGPACK;
     generations_serializer_type := MSGPACK |}.

Section Methods.
Context `{Bittensor}.

Definition class_name : string := "TextSeq2SeqForwardCall".

(** [self.name] read: a missing attribute raises [AttributeError]. *)
Definition getattr (name : string) : Py.M call_state value :=
  fun s =>
    match self s !! name with
    | Some v => (Py.Ok v, s)
    | None =>
        (Py.Raise (Py.Exn Py.AttributeError
           ("'" ++ class_name ++ "' object has no attribute '" ++ name ++ "'")), s)
    end.

(** [self.name = v] *)
Definition setattr (name : string) (v : value) : Py.M call_state unit :=
  Py.modify (fun s => {| self := <[name := v]> (self s); calls := calls s |}).

Definition log (ev : call_event) : Py.M call_state unit :=
  Py.modify (fun s => {| self := self s; calls := calls s ++ [ev] |}).

Definition new_serializer (serializer_type : value) : Py.M call_state codec :=
  log (CallSerializer serializer_type) ;;;
  Py.lift (bittensor_serializer serializer_type).

Definition do_serialize (c : codec) (v : value) : Py.M call_state proto_tensor :=
  log (CallSerialize c v) ;;;
  Py.lift (serialize c v).

Definition do_deserialize (c : codec) (p : proto_tensor) : Py.M call_state value :=
  log (CallDeserialize c p) ;;;
  Py.lift (deserialize c p).

(** Lines 81-98. *)
Definition init (a : init_args) : Py.M call_state unit :=
  Py.modify (fun s => {| self := ForwardCall_init (timeout a) (self s);
                         calls := calls s |}) ;;;
  setattr "text_prompt" (text_prompt a) ;;;
  setattr "generations" VNone ;;;
  setattr "topk" (topk a) ;;;
  setattr "num_to_generate" (num_to_generate a) ;;;
  setattr "num_beams" (num_beams a) ;;;
  setattr "no_repeat_ngram_size" (no_repeat_ngram_size a) ;;;
  setattr "early_stopping" (early_stopping a) ;;;
  setattr "num_return_sequences" (num_return_sequences a) ;;;
  setattr "do_sample" (do_sample a) ;;;
  setattr "top_p" (top_p a) ;;;
  setattr "temperature" (temperature a) ;;;
  setattr "repetition_penalty" (repetition_penalty a) ;;;
  setattr "length_penalty" (length_penalty a) ;;;
  setattr "max_time" (max_time a) ;;;
  setattr "num_beam_groups" (num_beam_groups a) ;;;
  setattr "text_prompt_serializer_type" (text_prompt_serializer_type a) ;;;
  setattr "generations_serializer_type" (generations_serializer_type a).

(** [v.shape] *)
Definition shape_of (v : value) : Py.M call_state (list nat) :=
  match v with
  | VTensor t => Py.ret (shape t)
  | _ => Py.raise (Py.Exn Py.AttributeError "object has no attribute 'shape'")
  end.

(** Lines 100-103 and 105-108; the result [None] is Python's [None]. *)
Definition get_inputs_shape : Py.M call_state (option (list nat)) :=
  let* v := getattr "text_prompt" in
  match v with
  | VNone => Py.ret None
  | _ => let* sh := shape_of v in Py.ret (Some sh)
  end.

Definition get_outputs_shape : Py.M call_state (option (list nat)) :=
  let* v := getattr "generations" in
  match v with
  | VNone => Py.ret None
  | _ => let* sh := shape_of v in Py.ret (Some sh)
  end.

(** Lines 110-118; the response is built from its one keyword. *)
Definition to_forward_response_proto : Py.M call_state proto_tensor :=
  let* st := getattr "generations_serializer_type" in
  let* generations_serializer := new_serializer st in
  let* g := getattr "generations" in
  do_serialize generations_serializer g.

(** Lines 120-127. *)
Definition from_forward_response_proto (response_proto : ForwardTextSeq2SeqResponse)
  : Py.M call_state unit :=
  (if decide (return_code response_proto <> Success)
   then Py.raise (Py.Exn Py.Exception
                    ("Remote Server Failure: " ++ message response_proto))
   else Py.ret tt) ;;;
  let* st := getattr "generations_serializer_type" in
  let* generations_deserializer := new_serializer st in
  let* g := do_deserialize generations_deserializer
         (serialized_generations response_proto) in
  setattr "generations" g.

(** Lines 138-162. *)
Definition to_forward_request_proto : Py.M call_state ForwardTextSeq2SeqRequest :=
  let* st := getattr "_text_prompt_serializer_type" in
  let* text_prompt_serializer := new_serializer st in
  let* tp := getattr "text_prompt" in
  let* serialized := do_serialize text_prompt_serializer tp in
  let* a1 := getattr "text_prompt_serializer_type" in
  let* a2 := getattr "generations_serializer_type" in
  let* a3 := getattr "topk" in
  let* a4 := getattr "num_to_generate" in
  let* a5 := getattr "num_beams" in
  let* a6 := getattr "no_repeat_ngram_size" in
  let* a7 := getattr "early_stopping" in
  let* a8 := getattr "num_return_sequences" in
  let* a9 := getattr "do_sample" in
  let* a10 := getattr "top_p" in
  let* a11 := getattr "temperature" in
  let* a12 := getattr "repetition_penalty" in
  let* a13 := getattr "length_penalty" in
  let* a14 := getattr "max_time" in
  let* a15 := getattr "num_beam_groups" in
  let* a16 := getattr "timeout" in
  Py.ret {| serialized_text_prompt := serialized;
            req_text_prompt_serializer_type := a1;
            req_generations_serializer_type := a2;
            req_topk := a3;
            req_num_to_generate := a4;
            req_num_beams := a5;
            req_no_repeat_ngram_size := a6;
            req_early_stopping := a7;
            req_num_return_sequences := a8;
            req_do_sample := a9;
            req_top_p := a10;
            req_temperature := a11;
            req_repetition_penalty := a12;
            req_length_penalty := a13;
            req_max_time := a14;
            req_num_beam_groups := a15;
            req_timeout := a16 |}.

(** A fresh instance: [TextSeq2SeqForwardCall( ... )] on an empty
    dictionary with no call made yet. *)
Definition new_call (a : init_args) : call_state :=
  snd (init a {| self := ∅; calls := [] |}).

(** A method that only reads the instance: every attribute is left as it
    was, and the calls made so far are still there. *)
Definition reads_only {A} (c : Py.M call_state A) : Prop :=
  forall st,
    self (snd (c st)) = self st
    /\ exists evs, calls (snd (c st)) = (calls st ++ evs)%list.

End Methods.

End Call.

(** ** [bittensor/_neuron/text/core_server/run.py] *)

Module Run.

(** [config.neuron.*] and [config.wandb.api_key], as far as [serve] reads
    them. [blacklist_time] is in whole seconds. *)
Record config : Type := {
  remote_train : bool;
  local_train : bool;
  blocks_per_epoch : Z;
  blocks_per_set_weights : Z;
  blacklist_allow_non_registered : bool;
  blacklist_stake : Q;
  blacklist_time : Z;
  wandb_api_key : string
}.

(** [bittensor.proto.Synapse]: the one field the dispatcher reads. *)
Record synapse : Type := { synapse_type : Z }.

(** One item [inputs_x[index]]: rows of token ids, [size(0)] is the
    number of rows. One item [grads_dy[index]]: its elements. *)
Definition input_item : Type := list (list Z).
Definition grad_item : Type := list Q.

Definition size0 (x : input_item) : Z := Z.of_nat (length x).

(** The objects combined by [and] in the [with] statement of line 218. *)
Inductive context_manager : Set :=
| Mutex
| EnableGrad
| DetectAnomaly (mode : bool).

(** None of the three classes defines [__bool__] or [__len__]: their
    instances are truthy. *)
Definition truthy (c : context_manager) : bool := true.

(** Calls that leave [serve], in program order. *)
Inductive event : Type :=
| EvEnter (c : context_manager)
| EvExit (c : context_manager)
| EvCallback (kind : Z) (index : nat)
| EvBackward (index : nat)
| EvNextBatch (n : nat)
| EvLossBackward
| EvSleep (seconds : Z)
| EvClipGradNorm
| EvOptimizerStep (lr : Q)
| EvZeroGrad
| EvModelSave
| EvWandbLog (loss : option Q) (step : Z)
| EvWandbStats (step : Z)
| EvSetWeights (uid : nat)
| EvMetagraphSync
| EvNeuronForPubkey.

(** The metagraph as the admission checks read it. *)
Record Metagraph : Type := {
  hotkeys : list string;
  stake : list Q;
  weights : list (list Q)
}.

(** What [serve] is given and does not define. [W] is the state of the
    torch runtime (parameters, accumulated gradients, autograd graphs,
    random generator), which callbacks and backward passes read and
    change; [effect] is what every other outgoing call does to it. *)
Class Collaborators : Type := {
  W : Type;
  torch_out : Type;
  (** [axon.synapse_callbacks]: a key may be absent or bound to [None]. *)
  synapse_callbacks :
    gmap Z (option (input_item -> synapse -> Py.M W (torch_out * torch_out)));
  (** [torch.autograd.backward( tensors, grad_tensors, retain_graph = True )] *)
  autograd_backward : torch_out -> grad_item -> Py.M W unit;
  effect : event -> W -> W;
  (** successive results of [subtensor.get_current_block()] *)
  clock : nat -> Z;
  (** the loss of [model( batch )] on the n-th batch drawn *)
  loss_of : nat -> Q;
  (** [subtensor.set_weights( ... )] *)
  set_weights : Py.M W bool;
  metagraph : Metagraph;
  (** [subtensor.min_allowed_weights], [subtensor.n] *)
  min_allowed_weights : Z;
  subtensor_n : nat;
  (** [wallet.hotkey.ss58_address] *)
  hotkey : string
}.

(** The objects shared by the closures of [serve]: the attributes of
    [model] that [run.py] reads or writes, the optimizer's learning rate,
    the lock, the [timecheck] dictionary (pubkey to a time in
    microseconds), and the counters of the oracles. *)
Record state `{Collaborators} : Type := {
  world : W;
  trace : list event;
  ticks : nat;
  batches : nat;
  backward_gradients_count : Z;
  backward_gradients : option Z;
  best_loss : Q;
  lr : Q;
  mutex_locked : bool;
  timecheck : gmap string Z
}.

(** A running function: the shared objects and its own local variables. *)
Record frame `{Collaborators} (L : Type) : Type := {
  globals : state;
  locals : L
}.
Arguments globals {_ _} _.
Arguments locals {_ _} _.

(** Local variables of [backward_callback]. *)
Record responses `{Collaborators} : Type := {
  response_tensors : list (option torch_out);
  response_codes : list ReturnCode;
  response_messages : list string
}.

(** Local variables of [serve] that the loop uses; [losses] is unbound
    until line 295 or 297 first runs, [local_data] holds at most the key
    ['local/loss']. *)
Record serve_locals : Type := {
  iteration : Z;
  local_data : option Q;
  current_block : Z;
  end_block : Z;
  losses : option Q;
  last_set_block : Z;
  uid : nat
}.

Section Serve.
Context `{Collaborators}.

(** *** Assignments to the shared objects *)

Definition set_world (w : W) (s : state) : state :=
  {| world := w; trace := trace s; ticks := ticks s; batches := batches s;
     backward_gradients_count := backward_gradients_count s;
     backward_gradients := backward_gradients s; best_loss := best_loss s;
     lr := lr s; mutex_locked := mutex_locked s; timecheck := timecheck s |}.

Definition set_trace (t : list event) (s : state) : state :=
  {| world := world s; trace := t; ticks := ticks s; batches := batches s;
     backward_gradients_count := backward_gradients_count s;
     backward_gradients := backward_gradients s; best_loss := best_loss s;
     lr := lr s; mutex_locked := mutex_locked s; timecheck := timecheck s |}.

Definition set_ticks (n : nat) (s : state) : state :=
  {| world := world s; trace := trace s; ticks := n; batches := batches s;
     backward_gradients_count := backward_gradients_count s;
     backward_gradients := backward_gradients s; best_loss := best_loss s;
     lr := lr s; mutex_locked := mutex_locked s; timecheck := timecheck s |}.

Definition set_batches (n : nat) (s : state) : state :=
  {| world := world s; trace := trace s; ticks := ticks s; batches := n;
     backward_gradients_count := backward_gradients_count s;
     backward_gradients := backward_gradients s; best_loss := best_loss s;
     lr := lr s; mutex_locked := mutex_locked s; timecheck := timecheck s |}.

Definition set_backward_gradients_count (n : Z) (s : state) : state :=
  {| world := world s; trace := trace s; ticks := ticks s; batches := batches s;
     backward_gradients_count := n;
     backward_gradients := backward_gradients s; best_loss := best_loss s;
     lr := lr s; mutex_locked := mutex_locked s; timecheck := timecheck s |}.

Definition set_backward_gradients (n : Z) (s : state) : state :=
  {| world := world s; trace := trace s; ticks := ticks s; batches := batches s;
     backward_gradients_count := backward_gradients_count s;
     backward_gradients := Some n; best_loss := best_loss s;
     lr := lr s; mutex_locked := mutex_locked s; timecheck := timecheck s |}.

Definition set_best_loss (q : Q) (s : state) : state :=
  {| world := world s; trace := trace s; ticks := ticks s; batches := batches s;
     backward_gradients_count := backward_gradients_count s;
     backward_gradients := backward_gradients s; best_loss := q;
     lr := lr s; mutex_locked := mutex_locked s; timecheck := timecheck s |}.

Definition set_lr (q : Q) (s : state) : state :=
  {| world := world s; trace := trace s; ticks := ticks s; batches := batches s;
     backward_gradients_count := backward_gradients_count s;
     backward_gradients := backward_gradients s; best_loss := best_loss s;
     lr := q; mutex_locked := mutex_locked s; timecheck := timecheck s |}.

Definition set_mutex_locked (b : bool) (s : state) : state :=
  {| world := world s; trace := trace s; ticks := ticks s; batches := batches s;
     backward_gradients_count := backward_gradients_count s;
     backward_gradients := backward_gradients s; best_loss := best_loss s;
     lr := lr s; mutex_locked := b; timecheck := timecheck s |}.

Definition set_timecheck (t : gmap string Z) (s : state) : state :=
  {| world := world s; trace := trace s; ticks := ticks s; batches := batches s;
     backward_gradients_count := backward_gradients_count s;
     backward_gradients := backward_gradients s; best_loss := best_loss s;
     lr := lr s; mutex_locked := mutex_locked s; timecheck := t |}.

(** *** Outgoing calls *)

(** A call that is only written to the trace. *)
Definition record (ev : event) : Py.M state unit :=
  Py.modify (fun s => set_trace (trace s ++ [ev]) s).

(** A call written to the trace that acts on the torch runtime. *)
Definition emit (ev : event) : Py.M state unit :=
  Py.modify (fun s => set_trace (trace s ++ [ev]) (set_world (effect ev (world s)) s)).

(** A callback or a backward pass running on the torch runtime. *)
Definition run_world {A} (c : Py.M W A) : Py.M state A :=
  fun s => let (r, w) := c (world s) in (r, set_world w s).

(** [subtensor.get_current_block()] *)
Definition get_current_block : Py.M state Z :=
  fun s => (Py.Ok (clock (ticks s)), set_ticks (S (ticks s)) s).

(** *** Frames *)

Definition glob {L A} (c : Py.M state A) : Py.M (frame L) A :=
  fun f => let (r, g) := c (globals f) in (r, {| globals := g; locals := locals f |}).

Definition loc_get {L} : Py.M (frame L) L := fun f => (Py.Ok (locals f), f).

Definition loc_modify {L} (u : L -> L) : Py.M (frame L) unit :=
  Py.modify (fun f => {| globals := globals f; locals := u (locals f) |}).

(** A call of a function whose local variables start as [l0]. *)
Definition call {L A} (l0 : L) (body : Py.M (frame L) A) : Py.M state A :=
  fun g => let (r, f) := body {| globals := g; locals := l0 |} in (r, globals f).

(** [c.__enter__()] and [c.__exit__( ... )]; entering the lock acquires it. *)
Definition enter (c : context_manager) : Py.M state unit :=
  emit (EvEnter c) ;;;
  match c with
  | Mutex => Py.modify (set_mutex_locked true)
  | _ => Py.ret tt
  end.

Definition exit_ (c : context_manager) : Py.M state unit :=
  emit (EvExit c) ;;;
  match c with
  | Mutex => Py.modify (set_mutex_locked false)
  | _ => Py.ret tt
  end.

(** [with c: body]: the exit runs on every way out of the body. *)
Definition with_ {L A} (c : context_manager) (body : Py.M (frame L) A)
  : Py.M (frame L) A :=
  glob (enter c) ;;;
  fun f => let (r, f1) := body f in
           let (_, f2) := glob (exit_ c) f1 in (r, f2).

(** *** Admission controller (lines 107-171) *)

Definition Qlt_bool (a b : Q) : bool := negb (Qle_bool b a).

(** [l.index( x )] *)
Definition list_index {S} (x : string) (l : list string) : Py.M S nat :=
  match list_find (fun y => y = x) l with
  | Some (i, _) => Py.ret i
  | None => Py.raise (Py.Exn Py.ValueError ("'" ++ x ++ "' is not in list"))
  end.

(** Lines 117-124; [None] is the fall through at the end of the body. *)
Definition registration_check (cfg : config) (pubkey : string)
  : Py.M state (option bool) :=
  let is_registered := bool_decide (pubkey ∈ hotkeys metagraph) in
  if negb is_registered then
    if blacklist_allow_non_registered cfg then Py.ret (Some false)
    else Py.raise (Py.Exn Py.Exception "Registration blacklist")
  else Py.ret None.

(** Lines 127-133. *)
Definition stake_check (cfg : config) (pubkey : string) : Py.M state bool :=
  let* uid := list_index pubkey (hotkeys metagraph) in
  let* st := Py.getitem (stake metagraph) uid in
  if Qlt_bool st (blacklist_stake cfg)
  then Py.raise (Py.Exn Py.Exception "Stake blacklist")
  else Py.ret false.

(** Lines 135-141, with [n_topk_peer_weights] of line 76. *)
Definition validator_check (pubkey : string) : Py.M state bool :=
  let n_topk_peer_weights := min_allowed_weights in
  let* uid := list_index pubkey (hotkeys metagraph) in
  let* row := Py.getitem (weights metagraph) uid in
  if Z.of_nat (length (filter (fun w => Qlt_bool 0 w = true) row))
       >=? n_topk_peer_weights
  then Py.ret false
  else Py.raise (Py.Exn Py.Exception "Validator blacklist").

(** [timedelta( seconds = n )] in microseconds. *)
Definition timedelta_seconds (n : Z) : Z := n * 1000000.

(** Lines 145-157; [current_time] is what [datetime.now()] returns at
    line 146, in microseconds. *)
Definition time_check (cfg : config) (pubkey : string) (current_time : Z)
  : Py.M state bool :=
  let* s := Py.get in
  match timecheck s !! pubkey with
  | Some prev_time =>
      if current_time - prev_time >=? timedelta_seconds (blacklist_time cfg) then
        Py.modify (set_timecheck (<[pubkey := current_time]> (timecheck s))) ;;;
        Py.ret false
      else
        Py.modify (set_timecheck (<[pubkey := current_time]> (timecheck s))) ;;;
        Py.raise (Py.Exn Py.Exception "blacklist")
  | None =>
      Py.modify (set_timecheck (<[pubkey := current_time]> (timecheck s))) ;;;
      Py.ret false
  end.

(** Lines 107-171: the three calls of lines 162-166 are comments, the
    body of the [try] is [return False]. *)
Definition blacklist (cfg : config) (pubkey : string) (request_type : Z)
  : Py.M state bool :=
  Py.try_except (Py.ret false) (fun _ => Py.ret true).

(** *** Backward dispatcher (lines 189-243) *)

Definition append_tensor (t : option torch_out) : Py.M (frame responses) unit :=
  loc_modify (fun r =>
    {| response_tensors := response_tensors r ++ [t];
       response_codes := response_codes r;
       response_messages := response_messages r |}).

Definition append_code (c : ReturnCode) : Py.M (frame responses) unit :=
  loc_modify (fun r =>
    {| response_tensors := response_tensors r;
       response_codes := response_codes r ++ [c];
       response_messages := response_messages r |}).

Definition append_message (m : string) : Py.M (frame responses) unit :=
  loc_modify (fun r =>
    {| response_tensors := response_tensors r;
       response_codes := response_codes r;
       response_messages := response_messages r ++ [m] |}).

(** Line 223: [grads_dy[index] / (grads_dy[index].sum() + 0.00001)] *)
Definition grads_norm (g : grad_item) : grad_item :=
  let total := fold_right Qplus 0%Q g in
  map (fun x => x / (total + (1 # 100000)))%Q g.

(** The body of the [try], lines 221-236. *)
Definition dispatch_try (inputs_x : list input_item) (grads_dy : list grad_item)
    (index : nat) (syn : synapse) : Py.M (frame responses) unit :=
  match synapse_callbacks !! synapse_type syn with
  | Some (Some callback) =>
      let* x := Py.getitem inputs_x index in
      glob (record (EvCallback (synapse_type syn) index)) ;;;
      let* out := glob (run_world (callback x syn)) in
      let response_tensor := snd out in
      let* g := Py.getitem grads_dy index in
      let grads_dy_norm := grads_norm g in
      glob (record (EvBackward index)) ;;;
      glob (run_world (autograd_backward response_tensor grads_dy_norm)) ;;;
      let* x' := Py.getitem inputs_x index in
      glob (Py.modify (fun s =>
        set_backward_gradients_count (backward_gradients_count s + size0 x') s)) ;;;
      append_tensor None ;;;
      append_code Success ;;;
      append_message "Success"
  | _ =>
      append_tensor None ;;;
      append_code NotImplemented ;;;
      append_message "Not Implemented"
  end.

(** The handler, lines 237-241. *)
Definition dispatch_except (e : Py.exn) : Py.M (frame responses) unit :=
  append_tensor None ;;;
  append_code UnknownException ;;;
  append_message (Py.str e).

(** The [for] loop of line 219, from position [index] on. *)
Fixpoint dispatch_loop (inputs_x : list input_item) (grads_dy : list grad_item)
    (index : nat) (synapses : list synapse) : Py.M (frame responses) unit :=
  match synapses with
  | [] => Py.ret tt
  | syn :: rest =>
      Py.try_except (dispatch_try inputs_x grads_dy index syn) dispatch_except ;;;
      dispatch_loop inputs_x grads_dy (S index) rest
  end.

Definition return_responses
  : Py.M (frame responses)
         (list (option torch_out) * list ReturnCode * list string) :=
  let* r := loc_get in
  Py.ret (response_tensors r, response_codes r, response_messages r).

(** The object the [with] statement of line 218 is given. *)
Definition with_item : context_manager :=
  Py.and_ truthy (Py.and_ truthy Mutex EnableGrad) (DetectAnomaly true).

Definition backward_callback (cfg : config) (inputs_x : list input_item)
    (grads_dy : list grad_item) (synapses : list synapse)
  : Py.M state (list (option torch_out) * list ReturnCode * list string) :=
  call {| response_tensors := []; response_codes := []; response_messages := [] |}
    (if negb (remote_train cfg) then return_responses
     else
       with_ with_item (dispatch_loop inputs_x grads_dy 0 synapses) ;;;
       return_responses).

(** *** Epoch loop (lines 281-373) *)

Definition set_iteration (n : Z) (l : serve_locals) : serve_locals :=
  {| iteration := n; local_data := local_data l; current_block := current_block l;
     end_block := end_block l; losses := losses l;
     last_set_block := last_set_block l; uid := uid l |}.

Definition set_local_data (d : option Q) (l : serve_locals) : serve_locals :=
  {| iteration := iteration l; local_data := d; current_block := current_block l;
     end_block := end_block l; losses := losses l;
     last_set_block := last_set_block l; uid := uid l |}.

Definition set_current_block (b : Z) (l : serve_locals) : serve_locals :=
  {| iteration := iteration l; local_data := local_data l; current_block := b;
     end_block := end_block l; losses := losses l;
     last_set_block := last_set_block l; uid := uid l |}.

Definition set_end_block (b : Z) (l : serve_locals) : serve_locals :=
  {| iteration := iteration l; local_data := local_data l;
     current_block := current_block l; end_block := b; losses := losses l;
     last_set_block := last_set_block l; uid := uid l |}.

Definition set_losses (q : Q) (l : serve_locals) : serve_locals :=
  {| iteration := iteration l; local_data := local_data l;
     current_block := current_block l; end_block := end_block l;
     losses := Some q; last_set_block := last_set_block l; uid := uid l |}.

Definition set_last_set_block (b : Z) (l : serve_locals) : serve_locals :=
  {| iteration := iteration l; local_data := local_data l;
     current_block := current_block l; end_block := end_block l;
     losses := losses l; last_set_block := b; uid := uid l |}.

Definition set_uid (u : nat) (l : serve_locals) : serve_locals :=
  {| iteration := iteration l; local_data := local_data l;
     current_block := current_block l; end_block := end_block l;
     losses := losses l; last_set_block := last_set_block l; uid := u |}.

(** A local variable read: [losses] may be unbound. *)
Definition read_losses : Py.M (frame serve_locals) Q :=
  let* l := loc_get in
  match losses l with
  | Some q => Py.ret q
  | None =>
      Py.raise (Py.Exn Py.UnboundLocalError
                  "local variable 'losses' referenced before assignment")
  end.

(** [while cond: body], cut after [fuel] tests of the condition; [None]
    when the cut is reached. *)
Fixpoint while_ {S} (fuel : nat) (cond : S -> bool) (body : Py.M S unit) (s : S)
  : option (Py.result unit * S) :=
  match fuel with
  | O => None
  | Datatypes.S fuel' =>
      if cond s then
        match body s with
        | (Py.Ok _, s') => while_ fuel' cond body s'
        | (Py.Raise e, s') => Some (Py.Raise e, s')
        end
      else Some (Py.Ok tt, s)
  end.

(** Lines 283-288; the neuron [nn] that line 285 asks the chain for is
    used by the report only. *)
Definition epoch_start (cfg : config) : Py.M (frame serve_locals) unit :=
  loc_modify (set_iteration 0) ;;;
  loc_modify (set_local_data None) ;;;
  glob (record EvNeuronForPubkey) ;;;
  let* u := list_index hotkey (hotkeys metagraph) in
  loc_modify (set_uid u) ;;;
  let* b := glob get_current_block in
  loc_modify (set_current_block b) ;;;
  loc_modify (fun l => set_end_block (current_block l + blocks_per_epoch cfg) l).

(** The condition of lines 291 and 306. *)
Definition in_epoch (f : frame serve_locals) : bool :=
  end_block (locals f) >=? current_block (locals f).

(** [model( next( dataset ).to( model.device ) )]: draws a batch. *)
Definition model_on_next_batch : Py.M state Q :=
  let* s := Py.get in
  emit (EvNextBatch (batches s)) ;;;
  Py.modify (set_batches (S (batches s))) ;;;
  Py.ret (loss_of (batches s)).

(** Lines 292-300. *)
Definition train_step : Py.M (frame serve_locals) unit :=
  let* l := loc_get in
  let* b := glob get_current_block in
  if negb (current_block l =? b)%Z then
    let* loss := glob model_on_next_batch in
    (if iteration l >? 0 then
       let* acc := read_losses in loc_modify (set_losses (acc + loss)%Q)
     else loc_modify (set_losses loss)) ;;;
    loc_modify (fun l => set_iteration (iteration l + 1) l) ;;;
    let* b' := glob get_current_block in
    loc_modify (set_current_block b')
  else Py.ret tt.

(** Lines 302-303. *)
Definition backward_local_loss : Py.M (frame serve_locals) unit :=
  let* l := loc_get in
  if negb (iteration l =? 0)%Z then
    let* _ := read_losses in glob (emit EvLossBackward)
  else Py.ret tt.

(** Lines 307-308. *)
Definition wait_step : Py.M (frame serve_locals) unit :=
  glob (record (EvSleep 12)) ;;;
  let* b := glob get_current_block in
  loc_modify (set_current_block b).

(** Lines 289-308. *)
Definition train_or_wait (cfg : config) (fuel : nat) (f : frame serve_locals)
  : option (Py.result unit * frame serve_locals) :=
  if local_train cfg then
    match while_ fuel in_epoch train_step f with
    | Some (Py.Ok _, f') => Some (backward_local_loss f')
    | other => other
    end
  else while_ fuel in_epoch wait_step f.

(** The condition of line 312. *)
Definition update_due (cfg : config) (f : frame serve_locals) : bool :=
  (local_train cfg && (iteration (locals f) >? 0)%Z)
  || (remote_train cfg && (backward_gradients_count (globals f) >? 0)%Z).

(** Lines 312-329. *)
Definition maybe_update (cfg : config) : Py.M (frame serve_locals) unit :=
  let* f := Py.get in
  let* s := glob Py.get in
  if update_due cfg f then
    (if (backward_gradients_count s >? 0)%Z
     then glob (Py.modify
                  (set_lr ((1 # 10) / inject_Z (backward_gradients_count s))%Q))
     else glob (Py.modify (set_lr (1 # 10)%Q))) ;;;
    glob (emit EvClipGradNorm) ;;;
    let* s1 := glob Py.get in
    glob (emit (EvOptimizerStep (lr s1))) ;;;
    glob (emit EvZeroGrad) ;;;
    glob (Py.modify (set_backward_gradients 0)) ;;;
    let* total := read_losses in
    let* l1 := loc_get in
    let* avg :=
      (if (iteration l1 =? 0)%Z
       then Py.raise (Py.Exn Py.ZeroDivisionError "float division by zero")
       else Py.ret (total / inject_Z (iteration l1))%Q) in
    loc_modify (set_local_data (Some avg)) ;;;
    let* s2 := glob Py.get in
    if Qlt_bool avg (best_loss s2) then
      glob (Py.modify (set_best_loss avg)) ;;;
      glob (emit EvModelSave)
    else Py.ret tt
  else Py.ret tt.

(** Lines 331-349. *)
Definition report (cfg : config) : Py.M (frame serve_locals) unit :=
  if negb (String.eqb (wandb_api_key cfg) "default") then
    let* l := loc_get in
    glob (record (EvWandbLog (local_data l) (current_block l))) ;;;
    glob (record (EvWandbStats (current_block l)))
  else Py.ret tt.

(** Lines 351-373; [chain_weights[ uid ] = 1] needs [uid] below
    [subtensor.n]. *)
Definition maybe_commit_weights (cfg : config) : Py.M (frame serve_locals) unit :=
  let* l := loc_get in
  if (current_block l - last_set_block l >? blocks_per_set_weights cfg)%Z then
    Py.try_except
      (loc_modify (set_last_set_block (current_block l)) ;;;
       (if bool_decide (uid l < subtensor_n)%nat then Py.ret tt
        else Py.raise (Py.Exn Py.IndexError "index out of range")) ;;;
       glob (record (EvSetWeights (uid l))) ;;;
       let* did_set := glob (run_world set_weights) in
       glob (emit EvMetagraphSync))
      (fun _ => Py.ret tt)
  else Py.ret tt.

(** Lines 283-308: a turn of [while True] up to the update; [None] when
    an inner loop is cut. *)
Definition reach_update (cfg : config) (fuel : nat) (f : frame serve_locals)
  : option (Py.result unit * frame serve_locals) :=
  match epoch_start cfg f with
  | (Py.Ok _, f1) => train_or_wait cfg fuel f1
  | (Py.Raise e, f1) => Some (Py.Raise e, f1)
  end.

(** Lines 311-373: the turn from the update on. *)
Definition finish_epoch (cfg : config) : Py.M (frame serve_locals) unit :=
  maybe_update cfg ;;;
  report cfg ;;;
  maybe_commit_weights cfg.

(** One turn of [while True] (lines 283-373). *)
Definition epoch (cfg : config) (fuel : nat) (f : frame serve_locals)
  : option (Py.result unit * frame serve_locals) :=
  match reach_update cfg fuel f with
  | Some (Py.Ok _, f2) => Some (finish_epoch cfg f2)
  | other => other
  end.

(** The first [n] turns of the loop; an exception ends [serve]. *)
Fixpoint serve_loop (cfg : config) (fuel : nat) (n : nat) (f : frame serve_locals)
  : option (Py.result unit * frame serve_locals) :=
  match n with
  | O => Some (Py.Ok tt, f)
  | S n' =>
      match epoch cfg fuel f with
      | Some (Py.Ok _, f') => serve_loop cfg fuel n' f'
      | other => other
      end
  end.

(** *** Observations on a run of the dispatcher *)

(** Whether line 221 finds a callback for the item. *)
Definition has_callback (syn : synapse) : bool :=
  match synapse_callbacks !! synapse_type syn with
  | Some (Some _) => true
  | _ => false
  end.

(** The response lists with one more entry; the tensor slot is [None]. *)
Definition pushed (r : responses) (c : ReturnCode) (m : string) : responses :=
  {| response_tensors := response_tensors r ++ [None];
     response_codes := response_codes r ++ [c];
     response_messages := response_messages r ++ [m] |}.

(** The entry that lines 230-241 append for an item whose [try] block
    ended as [r]. *)
Definition entry_of (syn : synapse) (r : Py.result unit) : ReturnCode * string :=
  match r with
  | Py.Ok _ =>
      if has_callback syn then (Success, "Success")
      else (NotImplemented, "Not Implemented")
  | Py.Raise e => (UnknownException, Py.str e)
  end.

(** One turn of the loop of line 219. *)
Definition dispatch_item (inputs_x : list input_item) (grads_dy : list grad_item)
    (index : nat) (syn : synapse) : Py.M (frame responses) unit :=
  Py.try_except (dispatch_try inputs_x grads_dy index syn) dispatch_except.

(** [s'] is reached from [s] by calls among which none acquires the lock. *)
Definition lock_free (s s' : state) : Prop :=
  exists evs,
    trace s' = (trace s ++ evs)%list
    /\ Forall (fun ev => ev <> EvEnter Mutex) evs
    /\ mutex_locked s' = mutex_locked s.

(** The frame of [backward_callback] once the [with] statement is entered. *)
Definition entered (s : state) : frame responses :=
  snd (glob (enter with_item)
         {| globals := s;
            locals := {| response_tensors := []; response_codes := [];
                         response_messages := [] |} |}).

(** The frame when the loop of line 219 reaches position [i]. *)
Definition frame_at (inputs_x : list input_item) (grads_dy : list grad_item)
    (synapses : list synapse) (s : state) (i : nat) : frame responses :=
  snd (dispatch_loop inputs_x grads_dy 0 (take i synapses) (entered s)).

(** How the [try] block of item [i] ends when the loop reaches it. *)
Definition item_outcome (inputs_x : list input_item) (grads_dy : list grad_item)
    (synapses : list synapse) (s : state) (i : nat) (syn : synapse)
  : Py.result unit :=
  fst (dispatch_try inputs_x grads_dy i syn
         (frame_at inputs_x grads_dy synapses s i)).

(** *** Further observations on the dispatcher *)

(** The samples of the items answered [Success], inputs and codes being
    taken position by position. *)
Fixpoint success_samples (inputs : list input_item) (codes : list ReturnCode) : Z :=
  match inputs, codes with
  | x :: inputs', c :: codes' =>
      (if decide (c = Success) then size0 x else 0) + success_samples inputs' codes'
  | _, _ => 0
  end.

(** The calls a turn of the dispatcher's loop makes. *)
Definition dispatch_event (ev : event) : Prop :=
  match ev with
  | EvCallback _ _ | EvBackward _ => True
  | _ => False
  end.


(** [s'] is reached from [s] by turns of the dispatcher's loop: callbacks
    and backward passes are the only calls made, and apart from the torch
    runtime and the counter the shared objects are as before. *)
Definition dispatch_steps (s s' : state) : Prop :=
  exists evs,
    trace s' = (trace s ++ evs)%list
    /\ Forall dispatch_event evs
    /\ ticks s' = ticks s
    /\ batches s' = batches s
    /\ backward_gradients s' = backward_gradients s
    /\ best_loss s' = best_loss s
    /\ lr s' = lr s
    /\ mutex_locked s' = mutex_locked s
    /\ timecheck s' = timecheck s.


(** *** Further observations on the epoch loop *)

(** The sum of the losses of [n] batches drawn from the [b0]-th on. *)
Definition loss_total (b0 n : nat) : Q :=
  fold_right Qplus 0%Q (map loss_of (seq b0 n)).

(** Once an iteration is made, [losses] holds the sum of the losses of the
    batches drawn since [b0]. *)
Definition losses_inv (b0 : nat) (f : frame serve_locals) : Prop :=
  0 < iteration (locals f) ->
  exists q, losses (locals f) = Some q
            /\ (q == loss_total b0 (Z.to_nat (iteration (locals f))))%Q.

(** Calls by which [serve] trains the model or writes a checkpoint. *)
Definition training_event (ev : event) : Prop :=
  match ev with
  | EvNextBatch _ | EvLossBackward | EvClipGradNorm | EvOptimizerStep _
  | EvZeroGrad | EvModelSave => True
  | _ => False
  end.


(** [s'] is reached from [s] without training: no batch is drawn, no
    backward pass or optimizer step is made, no checkpoint is written, and
    the counters, the best loss and the learning rate are as before. *)
Definition untrained (s s' : state) : Prop :=
  exists evs,
    trace s' = (trace s ++ evs)%list
    /\ Forall (fun ev => ~ training_event ev) evs
    /\ batches s' = batches s
    /\ backward_gradients_count s' = backward_gradients_count s
    /\ backward_gradients s' = backward_gradients s
    /\ best_loss s' = best_loss s
    /\ lr s' = lr s.

(** *** Observations on the admission checks *)

(** The rate-limit check run for one caller at each of [times] in turn:
    the outcomes, and the shared objects at the end. *)
Fixpoint time_check_all (cfg : config) (pubkey : string) (times : list Z)
    (s : state) : list (Py.result bool) * state :=
  match times with
  | [] => ([], s)
  | t :: rest =>
      let (r, s1) := time_check cfg pubkey t s in
      let (rs, s2) := time_check_all cfg pubkey rest s1 in
      (r :: rs, s2)
  end.

(** Every time of [times] is less than [window] after the one before it,
    the first one after [t0]. *)
Fixpoint within_window (window t0 : Z) (times : list Z) : Prop :=
  match times with
  | [] => True
  | t :: rest => t - t0 < window /\ within_window window t rest
  end.


(** *** Observations on the loops of lines 291 and 306 *)

(** What the training loop keeps: the end block [e], a count of
    iterations that is the count of batches drawn since [b0], [losses]
    bound once an iteration is made, and the block [c0] still current as
    long as none is. *)
Definition training_inv (e c0 : Z) (b0 : nat) (f : frame serve_locals) : Prop :=
  end_block (locals f) = e
  /\ 0 <= iteration (locals f)
  /\ (0 < iteration (locals f) -> losses (locals f) <> None)
  /\ batches (globals f) = (b0 + Z.to_nat (iteration (locals f)))%nat
  /\ (iteration (locals f) = 0 -> current_block (locals f) = c0).

(** What the waiting loop keeps. *)
Definition waiting_inv (e i0 : Z) (b0 : nat) (f : frame serve_locals) : Prop :=
  end_block (locals f) = e
  /\ iteration (locals f) = i0
  /\ batches (globals f) = b0.

(** A bound on the turns left when every reading of the chain from the
    [n]-th on is past the end block. *)
Definition turns_left (n : nat) (f : frame serve_locals) : nat :=
  if in_epoch f then S (n - ticks (globals f)) else 0%nat.

End Serve.

End Run.

(** ** Concrete collaborators, for running the definitions *)

Module Samples.

Import Call.

(** Modelled from the spec: the base class [dendrite.ForwardCall] and the
    serializers are not in the two files. The envelope of the spec holds
    the timeout next to the payload and the codec selectors, so the base
    initialiser stores [timeout]; a codec is its selector, and the wire
    form of a value is the value. *)
Definition plain_bittensor : Bittensor :=
  {| codec := Z;
     proto_tensor := value;
     ForwardCall_init := fun t d => <["timeout" := t]> d;
     bittensor_serializer := fun v =>
       match v with
       | VEnum n => Py.Ok n
       | _ => Py.Raise (Py.Exn Py.Exception "serializer type not implemented")
       end;
     serialize := fun _ v => Py.Ok v;
     deserialize := fun _ p => Py.Ok p |}.

Definition prompt : value := VTensor {| shape := [1; 3]%nat; data := [7; 8; 9] |}.

Definition failed_response : @ForwardTextSeq2SeqResponse plain_bittensor :=
  @Build_ForwardTextSeq2SeqResponse plain_bittensor UnknownException "boom" VNone.

Definition good_response : @ForwardTextSeq2SeqResponse plain_bittensor :=
  @Build_ForwardTextSeq2SeqResponse plain_bittensor Success "Success" prompt.

(** The sample call on the side that answers, once it holds a generation. *)
Definition answering : @call_state plain_bittensor :=
  snd (@setattr plain_bittensor "generations" prompt
         (@new_call plain_bittensor (default_args 12 prompt))).

(** The arguments of a call whose generations serializer type is [None],
    for which the sample factory has no serializer. *)
Definition odd_args : init_args :=
  {| text_prompt := prompt; timeout := VFloat 12; topk := VInt 50;
     num_to_generate := VInt 256; num_beams := VInt 5;
     no_repeat_ngram_size := VInt 2; early_stopping := VBool false;
     num_return_sequences := VInt 1; do_sample := VBool false;
     top_p := VFloat (95 # 100); temperature := VFloat 1;
     repetition_penalty := VFloat 1; length_penalty := VFloat 1;
     max_time := VFloat 150; num_beam_groups := VInt 1;
     text_prompt_serializer_type := MSGPACK;
     generations_serializer_type := VNone |}.

Import Run.

Definition ok_callback : input_item -> synapse -> Py.M unit (unit * unit) :=
  fun _ _ => Py.ret (tt, tt).

Definition bad_callback : input_item -> synapse -> Py.M unit (unit * unit) :=
  fun _ _ => Py.raise (Py.Exn Py.RuntimeError "callback failed").

(** A node with a callback for kind 1, a callback that throws for kind 2,
    [None] registered for kind 3, and a chain that gains one block at
    every reading. *)
Definition node : Collaborators :=
  {| W := unit;
     torch_out := unit;
     synapse_callbacks :=
       <[1 := Some ok_callback]> (<[2 := Some bad_callback]> {[3 := None]});
     autograd_backward := fun _ _ => Py.ret tt;
     effect := fun _ w => w;
     clock := fun n => 10 + Z.of_nat n;
     loss_of := fun _ => 2%Q;
     set_weights := Py.ret true;
     metagraph := {| hotkeys := ["alice"; "bob"];
                     stake := [5%Q; 0%Q];
                     weights := [[0%Q; 1%Q]; [0%Q; 0%Q]] |};
     min_allowed_weights := 1;
     subtensor_n := 2;
     hotkey := "alice" |}.

Definition cfg (remote local : bool) (per_epoch : Z) : config :=
  {| remote_train := remote;
     local_train := local;
     blocks_per_epoch := per_epoch;
     blocks_per_set_weights := 100;
     blacklist_allow_non_registered := true;
     blacklist_stake := 10%Q;
     blacklist_time := 2;
     wandb_api_key := "key" |}.

(** The shared objects with [count] samples pending and [seen] as the
    [timecheck] dictionary. *)
Definition shared (count : Z) (seen : gmap string Z) : @state node :=
  @Build_state node tt [] 0%nat 0%nat count None 100%Q (1 # 100)%Q false seen.

(** [serve] as it enters [while True] for the first time. *)
Definition entering (count : Z) : @frame node serve_locals :=
  {| globals := shared count ∅;
     locals := {| iteration := 0; local_data := None; current_block := 0;
                  end_block := 0; losses := None; last_set_block := 10;
                  uid := 0 |} |}.

(** [serve] as it reaches line 312 with [count] samples pending, after
    [n] local iterations of the turn, [total] being bound to [losses]. *)
Definition updating (count n : Z) (total : option Q) : @frame node serve_locals :=
  {| globals := shared count ∅;
     locals := {| iteration := n; local_data := None; current_block := 12;
                  end_block := 11; losses := total; last_set_block := 10;
                  uid := 0 |} |}.

(** A batch of four synapse items (kinds 1, 4, 2, 3) with two samples each. *)
Definition batch_inputs : list input_item :=
  [[[1]; [2]]; [[3]; [4]]; [[5]; [6]]; [[7]; [8]]].
Definition batch_grads : list grad_item :=
  [[1%Q; 1%Q]; [1%Q; 1%Q]; [1%Q; 1%Q]; [1%Q; 1%Q]].
Definition batch_synapses : list synapse :=
  [{| synapse_type := 1 |}; {| synapse_type := 4 |};
   {| synapse_type := 2 |}; {| synapse_type := 3 |}].

(** The sample node under a hotkey that the metagraph does not list. *)
Definition stranger : Collaborators :=
  {| W := unit;
     torch_out := unit;
     synapse_callbacks := ∅;
     autograd_backward := fun _ _ => Py.ret tt;
     effect := fun _ w => w;
     clock := fun n => 10 + Z.of_nat n;
     loss_of := fun _ => 2%Q;
     set_weights := Py.ret true;
     metagraph := {| hotkeys := ["alice"; "bob"];
                     stake := [5%Q; 0%Q];
                     weights := [[0%Q; 1%Q]; [0%Q; 0%Q]] |};
     min_allowed_weights := 1;
     subtensor_n := 2;
     hotkey := "zed" |}.

(** [serve] of the stranger as it enters [while True]. *)
Definition stranger_entering : @frame stranger serve_locals :=
  {| globals := @Build_state stranger tt [] 0%nat 0%nat 0 None 100%Q (1 # 100)%Q
                  false ∅;
     locals := {| iteration := 0; local_data := None; current_block := 0;
                  end_block := 0; losses := None; last_set_block := 10;
                  uid := 0 |} |}.


End Samples.

(** ** Properties of [call.py] *)

Module CallSpec.

Import Call.

Section Envelope.
Context `{Bittensor}.

Lemma getattr_some (name : string) (v : value) (st : call_state) :
  self st !! name = Some v -> getattr name st = (Py.Ok v, st).
Proof. intros Hv. unfold getattr. by rewrite Hv. Qed.

Lemma getattr_none (name : string) (st : call_state) :
  self st !! name = None ->
  exists m, getattr name st = (Py.Raise (Py.Exn Py.AttributeError m), st).
Proof. intros Hv. unfold getattr. rewrite Hv. by eexists. Qed.

(** C9: a response whose return code is not [Success] makes
    [from_forward_response_proto] raise an exception whose text is
    ['Remote Server Failure: '] followed by the message of the response,
    with the instance untouched and no call made on a serializer; a
    response whose code is [Success] has its payload deserialized with the
    serializer of [generations_serializer_type] and stored in
    [generations]. *)
Theorem from_forward_response_proto_code_first
    (response_proto : ForwardTextSeq2SeqResponse) (st : call_state) :
  (return_code response_proto <> Success ->
   from_forward_response_proto response_proto st =
     (Py.Raise (Py.Exn Py.Exception
        ("Remote Server Failure: " ++ message response_proto)), st))
  /\ (return_code response_proto = Success ->
      forall sel c g,
        self st !! "generations_serializer_type" = Some sel ->
        bittensor_serializer sel = Py.Ok c ->
        deserialize c (serialized_generations response_proto) = Py.Ok g ->
        from_forward_response_proto response_proto st =
          (Py.Ok tt,
           {| self := <["generations" := g]> (self st);
              calls := calls st ++
                [CallSerializer sel;
                 CallDeserialize c (serialized_generations response_proto)] |})).
Proof.
  split.
  - intros Hcode. unfold from_forward_response_proto, Py.bind.
    destruct (decide (return_code response_proto <> Success)) as [_ | Hn]; [done | ].
    by destruct Hn.
  - intros Hcode sel c g Hsel Hser Hde.
    unfold from_forward_response_proto, Py.bind.
    destruct (decide (return_code response_proto <> Success)) as [Hn | _];
      [by destruct Hn | ].
    cbn. rewrite (getattr_some _ _ _ Hsel).
    unfold new_serializer, do_deserialize, log, setattr, Py.bind, Py.modify, Py.lift.
    cbn. rewrite Hser. cbn. rewrite Hde. cbn.
    by rewrite <- app_assoc.
Qed.

(** The attribute read at line 140 is never assigned by lines 82-98: on a
    fresh instance it holds whatever the base class left under that name,
    whichever input codec was selected. *)
Lemma underscore_attribute_from_base (a : init_args) :
  self (new_call a) !! "_text_prompt_serializer_type" =
  ForwardCall_init (timeout a) ∅ !! "_text_prompt_serializer_type".
Proof.
  unfold new_call, init, setattr, Py.bind, Py.modify. cbn.
  by repeat (rewrite lookup_insert_ne; [ | done]).
Qed.

(** C5 (the code departs from it): on a fresh instance whose base class
    does not define [_text_prompt_serializer_type],
    [to_forward_request_proto] raises [AttributeError] at line 140: no
    request is returned and no serializer is asked for. *)
Theorem to_forward_request_proto_attribute_error (a : init_args) :
  ForwardCall_init (timeout a) ∅ !! "_text_prompt_serializer_type" = None ->
  exists m,
    to_forward_request_proto (new_call a) =
      (Py.Raise (Py.Exn Py.AttributeError m), new_call a)
    /\ calls (new_call a) = [].
Proof.
  intros Hbase.
  destruct (getattr_none "_text_prompt_serializer_type" (new_call a)) as [m Hm].
  { by rewrite underscore_attribute_from_base. }
  exists m. split.
  - unfold to_forward_request_proto, Py.bind. by rewrite Hm.
  - reflexivity.
Qed.

End Envelope.

Lemma from_forward_response_proto_code_first_witness :
  @from_forward_response_proto Samples.plain_bittensor Samples.failed_response
    (@new_call Samples.plain_bittensor (default_args 12 Samples.prompt))
  = (Py.Raise (Py.Exn Py.Exception "Remote Server Failure: boom"),
     @new_call Samples.plain_bittensor (default_args 12 Samples.prompt))
  /\ self (snd (@from_forward_response_proto Samples.plain_bittensor
                  Samples.good_response
                  (@new_call Samples.plain_bittensor (default_args 12 Samples.prompt))))
       !! "generations" = Some Samples.prompt.
Proof.
  split.
  - apply (proj1 (@from_forward_response_proto_code_first Samples.plain_bittensor
                    Samples.failed_response _)).
    discriminate.
  - rewrite (proj2 (@from_forward_response_proto_code_first Samples.plain_bittensor
                      Samples.good_response _)
               eq_refl MSGPACK 0 Samples.prompt);
      [ | vm_compute; reflexivity | reflexivity | reflexivity ].
    cbn [snd self]. apply lookup_insert_eq.
Defined.

Lemma to_forward_request_proto_attribute_error_witness :
  exists m,
    @to_forward_request_proto Samples.plain_bittensor
      (@new_call Samples.plain_bittensor (default_args 12 Samples.prompt)) =
      (Py.Raise (Py.Exn Py.AttributeError m),
       @new_call Samples.plain_bittensor (default_args 12 Samples.prompt))
    /\ calls (@new_call Samples.plain_bittensor (default_args 12 Samples.prompt)) = [].
Proof.
  apply (@to_forward_request_proto_attribute_error Samples.plain_bittensor).
  vm_compute. reflexivity.
Defined.

(** At the sample instance the exception names the missing attribute. *)
Example to_forward_request_proto_sample :
  fst (@to_forward_request_proto Samples.plain_bittensor
         (@new_call Samples.plain_bittensor (default_args 12 Samples.prompt))) =
  Py.Raise (Py.Exn Py.AttributeError
    "'TextSeq2SeqForwardCall' object has no attribute '_text_prompt_serializer_type'").
Proof. vm_compute. reflexivity. Qed.


Section Instance.
Context `{Bittensor}.

Lemma reads_only_ret {A} (a : A) : reads_only (Py.ret a).
Proof. intros st. split; [done | ]. exists []. by rewrite app_nil_r. Qed.

Lemma reads_only_raise {A} (e : Py.exn) : reads_only (@Py.raise call_state A e).
Proof. intros st. split; [done | ]. exists []. by rewrite app_nil_r. Qed.

Lemma reads_only_lift {A} (r : Py.result A) : reads_only (Py.lift r).
Proof. intros st. split; [done | ]. exists []. by rewrite app_nil_r. Qed.

Lemma reads_only_getattr (name : string) : reads_only (getattr name).
Proof.
  intros st. unfold getattr. destruct (self st !! name); cbn;
    (split; [done | ]); exists []; by rewrite app_nil_r.
Qed.

Lemma reads_only_log (ev : call_event) : reads_only (log ev).
Proof. intros st. split; [done | ]. by exists [ev]. Qed.

Lemma reads_only_bind {A B} (c : Py.M call_state A) (k : A -> Py.M call_state B) :
  reads_only c -> (forall a, reads_only (k a)) -> reads_only (Py.bind c k).
Proof.
  intros Hc Hk st. unfold Py.bind.
  destruct (Hc st) as [Hs [evs Hl]].
  destruct (c st) as [[a | e] st1]; cbn in *.
  - destruct (Hk a st1) as [Hs' [evs' Hl']].
    split; [congruence | ]. exists (evs ++ evs')%list.
    by rewrite Hl', Hl, app_assoc.
  - split; [done | by exists evs].
Qed.

Lemma reads_only_shape_of (v : value) : reads_only (shape_of v).
Proof. destruct v; first [apply reads_only_ret | apply reads_only_raise]. Qed.

Ltac reads_only_steps :=
  repeat first
    [ apply reads_only_bind; [ | intros ? ]
    | apply reads_only_getattr
    | apply reads_only_log
    | apply reads_only_lift
    | apply reads_only_ret
    | apply reads_only_raise
    | apply reads_only_shape_of ].

(** X1: the four methods that produce shapes and wire messages only read
    the instance: on every instance, whether they return or raise, every
    attribute is as before and no recorded call is lost. *)
Theorem wire_methods_read_only :
  reads_only get_inputs_shape
  /\ reads_only get_outputs_shape
  /\ reads_only to_forward_response_proto
  /\ reads_only to_forward_request_proto.
Proof.
  split; [ | split; [ | split ] ].
  - unfold get_inputs_shape. apply reads_only_bind; [apply reads_only_getattr | ].
    intros []; reads_only_steps.
  - unfold get_outputs_shape. apply reads_only_bind; [apply reads_only_getattr | ].
    intros []; reads_only_steps.
  - unfold to_forward_response_proto, new_serializer, do_serialize.
    reads_only_steps.
  - unfold to_forward_request_proto, new_serializer, do_serialize.
    reads_only_steps.
Qed.

(** The dictionary of a fresh instance: the assignments of lines 82-98 on
    top of what the base class stored. *)
Lemma new_call_self (a : init_args) :
  self (new_call a) =
  <["generations_serializer_type" := generations_serializer_type a]>
  (<["text_prompt_serializer_type" := text_prompt_serializer_type a]>
  (<["num_beam_groups" := num_beam_groups a]>
  (<["max_time" := max_time a]>
  (<["length_penalty" := length_penalty a]>
  (<["repetition_penalty" := repetition_penalty a]>
  (<["temperature" := temperature a]>
  (<["top_p" := top_p a]>
  (<["do_sample" := do_sample a]>
  (<["num_return_sequences" := num_return_sequences a]>
  (<["early_stopping" := early_stopping a]>
  (<["no_repeat_ngram_size" := no_repeat_ngram_size a]>
  (<["num_beams" := num_beams a]>
  (<["num_to_generate" := num_to_generate a]>
  (<["topk" := topk a]>
  (<["generations" := VNone]>
  (<["text_prompt" := text_prompt a]>
  (ForwardCall_init (timeout a) ∅))))))))))))))))).
Proof. reflexivity. Qed.

Ltac stored :=
  rewrite new_call_self;
  repeat (rewrite lookup_insert_ne;
          [ | apply String.eqb_neq; vm_compute; reflexivity ]);
  apply lookup_insert_eq.

(** X2: every argument of [__init__] is read back from the fresh instance
    under its own name, and [generations] is [None], whatever the base
    class stores: no later assignment of lines 82-98 overwrites an
    earlier one. *)
Theorem init_stores_arguments (a : init_args) :
  let d := self (new_call a) in
  d !! "text_prompt" = Some (text_prompt a)
  /\ d !! "generations" = Some VNone
  /\ d !! "topk" = Some (topk a)
  /\ d !! "num_to_generate" = Some (num_to_generate a)
  /\ d !! "num_beams" = Some (num_beams a)
  /\ d !! "no_repeat_ngram_size" = Some (no_repeat_ngram_size a)
  /\ d !! "early_stopping" = Some (early_stopping a)
  /\ d !! "num_return_sequences" = Some (num_return_sequences a)
  /\ d !! "do_sample" = Some (do_sample a)
  /\ d !! "top_p" = Some (top_p a)
  /\ d !! "temperature" = Some (temperature a)
  /\ d !! "repetition_penalty" = Some (repetition_penalty a)
  /\ d !! "length_penalty" = Some (length_penalty a)
  /\ d !! "max_time" = Some (max_time a)
  /\ d !! "num_beam_groups" = Some (num_beam_groups a)
  /\ d !! "text_prompt_serializer_type" = Some (text_prompt_serializer_type a)
  /\ d !! "generations_serializer_type" = Some (generations_serializer_type a).
Proof. cbn zeta. repeat split; stored. Qed.

(** X3: a fresh instance reports the shape of its prompt as input shape
    ([None] for a prompt that is [None]) and [None] as output shape. *)
Theorem fresh_call_shapes (a : init_args) :
  get_outputs_shape (new_call a) = (Py.Ok None, new_call a)
  /\ (text_prompt a = VNone ->
      get_inputs_shape (new_call a) = (Py.Ok None, new_call a))
  /\ (forall t, text_prompt a = VTensor t ->
      get_inputs_shape (new_call a) = (Py.Ok (Some (shape t)), new_call a)).
Proof.
  destruct (init_stores_arguments a) as (Hp & Hg & _).
  split; [ | split].
  - unfold get_outputs_shape, Py.bind. by rewrite (getattr_some _ _ _ Hg).
  - intros Hnone. unfold get_inputs_shape, Py.bind.
    rewrite (getattr_some _ _ _ Hp). by rewrite Hnone.
  - intros t Ht. unfold get_inputs_shape, Py.bind.
    rewrite (getattr_some _ _ _ Hp). by rewrite Ht.
Qed.

(** X4: whenever [from_forward_response_proto] raises, for a failed return
    code, a missing attribute, an unknown serializer type or a payload
    that does not deserialize, the attributes of the instance are as
    before: the output slot is written on success only. *)
Theorem failed_response_keeps_instance
    (response_proto : ForwardTextSeq2SeqResponse) (st st' : call_state)
    (e : Py.exn) :
  from_forward_response_proto response_proto st = (Py.Raise e, st') ->
  self st' = self st.
Proof.
  unfold from_forward_response_proto, new_serializer, do_deserialize, log, setattr,
    getattr, Py.bind, Py.modify, Py.lift, Py.raise, Py.ret.
  destruct (decide (return_code response_proto <> Success)); cbn;
    [by intros [= _ <-] | ].
  destruct (self st !! "generations_serializer_type") as [sel | ]; cbn;
    [ | by intros [= _ <-]].
  destruct (bittensor_serializer sel) as [c | e1]; cbn; [ | by intros [= _ <-]].
  destruct (deserialize c (serialized_generations response_proto)) as [g | e2]; cbn;
    [done | by intros [= _ <-]].
Qed.


(** What a response with return code [Success] does, step by step. *)
Lemma from_forward_response_proto_success
    (response_proto : ForwardTextSeq2SeqResponse) (st : call_state)
    (sel g : value) (c : codec) :
  return_code response_proto = Success ->
  self st !! "generations_serializer_type" = Some sel ->
  bittensor_serializer sel = Py.Ok c ->
  deserialize c (serialized_generations response_proto) = Py.Ok g ->
  from_forward_response_proto response_proto st =
    (Py.Ok tt,
     {| self := <["generations" := g]> (self st);
        calls := (calls st ++
          [CallSerializer sel;
           CallDeserialize c (serialized_generations response_proto)])%list |}).
Proof.
  intros Hcode Hsel Hser Hde.
  unfold from_forward_response_proto, Py.bind.
  destruct (decide (return_code response_proto <> Success)) as [Hn | _];
    [by destruct Hn | ].
  cbn. rewrite (getattr_some _ _ _ Hsel).
  unfold new_serializer, do_deserialize, log, setattr, Py.bind, Py.modify, Py.lift.
  cbn. rewrite Hser. cbn. rewrite Hde. cbn.
  by rewrite <- app_assoc.
Qed.

(** X5: a generation sent and received: when both sides select the same
    serializer type and its serializer gives the payload back on
    deserialization, the response built by [to_forward_response_proto] on
    the answering side, received with return code [Success], leaves the
    same generation in the output slot of the asking side, which then
    reports its shape. *)
Theorem response_round_trip
    (server client : call_state) (sel g : value) (c : codec) (p : proto_tensor)
    (msg : string) :
  self server !! "generations_serializer_type" = Some sel ->
  self client !! "generations_serializer_type" = Some sel ->
  self server !! "generations" = Some g ->
  bittensor_serializer sel = Py.Ok c ->
  serialize c g = Py.Ok p ->
  deserialize c p = Py.Ok g ->
  fst (to_forward_response_proto server) = Py.Ok p
  /\ (let client' :=
        snd (from_forward_response_proto
               {| return_code := Success; message := msg;
                  serialized_generations := p |} client) in
      self client' !! "generations" = Some g
      /\ forall t, g = VTensor t ->
           fst (get_outputs_shape client') = Py.Ok (Some (shape t))).
Proof.
  intros Hsel_s Hsel_c Hgen Hser Hen Hde. split.
  - unfold to_forward_response_proto, Py.bind.
    rewrite (getattr_some _ _ _ Hsel_s).
    unfold new_serializer, do_serialize, log, Py.bind, Py.modify, Py.lift. cbn.
    rewrite Hser. unfold getattr. cbn. rewrite Hgen. cbn. by rewrite Hen.
  - cbn zeta.
    rewrite (from_forward_response_proto_success
               {| return_code := Success; message := msg;
                  serialized_generations := p |} client sel g c eq_refl
               Hsel_c Hser Hde).
    cbn [snd self]. split; [apply lookup_insert_eq | ].
    intros t ->. unfold get_outputs_shape, getattr, Py.bind. cbn.
    by rewrite lookup_insert_eq.
Qed.

End Instance.


Lemma fresh_call_shapes_witness :
  @get_inputs_shape Samples.plain_bittensor
    (@new_call Samples.plain_bittensor (default_args 12 Samples.prompt))
  = (Py.Ok (Some [1; 3]%nat),
     @new_call Samples.plain_bittensor (default_args 12 Samples.prompt))
  /\ @get_inputs_shape Samples.plain_bittensor
       (@new_call Samples.plain_bittensor (default_args 12 VNone))
     = (Py.Ok None, @new_call Samples.plain_bittensor (default_args 12 VNone)).
Proof.
  split.
  - apply (proj2 (proj2 (@fresh_call_shapes Samples.plain_bittensor
                           (default_args 12 Samples.prompt)))
             {| shape := [1; 3]%nat; data := [7; 8; 9] |}).
    reflexivity.
  - apply (proj1 (proj2 (@fresh_call_shapes Samples.plain_bittensor
                           (default_args 12 VNone)))).
    reflexivity.
Defined.

Lemma failed_response_keeps_instance_witness :
  fst (@from_forward_response_proto Samples.plain_bittensor Samples.good_response
         (@new_call Samples.plain_bittensor Samples.odd_args))
  = Py.Raise (Py.Exn Py.Exception "serializer type not implemented")
  /\ self (snd (@from_forward_response_proto Samples.plain_bittensor
                  Samples.good_response
                  (@new_call Samples.plain_bittensor Samples.odd_args)))
     = self (@new_call Samples.plain_bittensor Samples.odd_args).
Proof.
  assert (Hfst :
    fst (@from_forward_response_proto Samples.plain_bittensor Samples.good_response
           (@new_call Samples.plain_bittensor Samples.odd_args))
    = Py.Raise (Py.Exn Py.Exception "serializer type not implemented")).
  { vm_compute. reflexivity. }
  split; [exact Hfst | ].
  destruct (@from_forward_response_proto Samples.plain_bittensor
              Samples.good_response
              (@new_call Samples.plain_bittensor Samples.odd_args))
    as [r st'] eqn:Hrun.
  cbn [fst] in Hfst. subst r. cbn [snd].
  exact (@failed_response_keeps_instance Samples.plain_bittensor
           Samples.good_response _ st' _ Hrun).
Defined.

Lemma response_round_trip_witness :
  fst (@to_forward_response_proto Samples.plain_bittensor Samples.answering)
  = Py.Ok Samples.prompt
  /\ fst (@get_outputs_shape Samples.plain_bittensor
            (snd (@from_forward_response_proto Samples.plain_bittensor
                    Samples.good_response
                    (@new_call Samples.plain_bittensor
                       (default_args 12 Samples.prompt)))))
     = Py.Ok (Some [1; 3]%nat).
Proof.
  destruct (@response_round_trip Samples.plain_bittensor Samples.answering
              (@new_call Samples.plain_bittensor (default_args 12 Samples.prompt))
              MSGPACK Samples.prompt 0 Samples.prompt "Success")
    as [Hsent [_ Hshape]]; try (vm_compute; reflexivity).
  split; [exact Hsent | ].
  apply (Hshape {| shape := [1; 3]%nat; data := [7; 8; 9] |}). reflexivity.
Defined.

End CallSpec.

(** ** Properties of [run.py] *)

Module RunSpec.

Import Run.

Section Admission.
Context `{Collaborators}.

(** C8: [blacklist] returns [False] for every caller and request type and
    leaves the shared objects as they were, under every configuration and
    so under the default one. *)
Theorem blacklist_never_rejects
    (cfg : config) (pubkey : string) (request_type : Z) (s : state) :
  blacklist cfg pubkey request_type s = (Py.Ok false, s).
Proof. reflexivity. Qed.

(** C7: whatever the outcome, [time_check] leaves the current time under
    the caller's key; a caller never seen is accepted; a caller seen
    [blacklist_time] seconds ago or earlier is accepted; a caller seen
    more recently is rejected by an exception, the time being stored all
    the same. *)
Theorem time_check_refreshes
    (cfg : config) (pubkey : string) (current_time : Z) (s : state) :
  timecheck (snd (time_check cfg pubkey current_time s))
    = <[pubkey := current_time]> (timecheck s)
  /\ (timecheck s !! pubkey = None ->
      fst (time_check cfg pubkey current_time s) = Py.Ok false)
  /\ (forall prev_time,
        timecheck s !! pubkey = Some prev_time ->
        timedelta_seconds (blacklist_time cfg) <= current_time - prev_time ->
        fst (time_check cfg pubkey current_time s) = Py.Ok false)
  /\ (forall prev_time,
        timecheck s !! pubkey = Some prev_time ->
        current_time - prev_time < timedelta_seconds (blacklist_time cfg) ->
        fst (time_check cfg pubkey current_time s)
          = Py.Raise (Py.Exn Py.Exception "blacklist")).
Proof.
  unfold time_check, Py.bind, Py.get, Py.modify, Py.ret, Py.raise.
  destruct (timecheck s !! pubkey) as [prev | ] eqn:Hseen.
  - destruct (Z.geb_spec (current_time - prev)
                (timedelta_seconds (blacklist_time cfg))) as [Hge | Hlt].
    + repeat split; try done.
      intros p [= <-] Hp. lia.
    + repeat split; try done.
      intros p [= <-] Hp. lia.
  - repeat split; done.
Qed.

End Admission.

Lemma time_check_refreshes_witness :
  fst (@time_check Samples.node (Samples.cfg true false 0) "carol" 1500000
         (Samples.shared 0 {[ "carol" := 0 ]}))
    = Py.Raise (Py.Exn Py.Exception "blacklist")
  /\ timecheck (snd (@time_check Samples.node (Samples.cfg true false 0) "carol"
                       1500000 (Samples.shared 0 {[ "carol" := 0 ]})))
       !! "carol" = Some 1500000
  /\ fst (@time_check Samples.node (Samples.cfg true false 0) "carol" 2000000
            (Samples.shared 0 {[ "carol" := 0 ]})) = Py.Ok false
  /\ fst (@time_check Samples.node (Samples.cfg true false 0) "carol" 7
            (Samples.shared 0 ∅)) = Py.Ok false.
Proof.
  split; [ | split; [ | split ] ].
  - apply (proj2 (proj2 (proj2
      (@time_check_refreshes Samples.node (Samples.cfg true false 0) "carol"
         1500000 (Samples.shared 0 {[ "carol" := 0 ]})))) 0).
    + reflexivity.
    + vm_compute. reflexivity.
  - rewrite (proj1
      (@time_check_refreshes Samples.node (Samples.cfg true false 0) "carol"
         1500000 (Samples.shared 0 {[ "carol" := 0 ]}))).
    apply lookup_insert_eq.
  - apply (proj1 (proj2 (proj2
      (@time_check_refreshes Samples.node (Samples.cfg true false 0) "carol"
         2000000 (Samples.shared 0 {[ "carol" := 0 ]})))) 0).
    + reflexivity.
    + vm_compute. discriminate.
  - apply (proj1 (proj2
      (@time_check_refreshes Samples.node (Samples.cfg true false 0) "carol"
         7 (Samples.shared 0 ∅)))).
    reflexivity.
Defined.

Section Dispatcher.
Context `{Collaborators}.
Variables (inputs_x : list input_item) (grads_dy : list grad_item).

Lemma lock_free_refl (s : state) : lock_free s s.
Proof. exists []. by rewrite app_nil_r. Qed.

Lemma lock_free_trans (s1 s2 s3 : state) :
  lock_free s1 s2 -> lock_free s2 s3 -> lock_free s1 s3.
Proof.
  intros (e1 & H1 & F1 & M1) (e2 & H2 & F2 & M2).
  exists (e1 ++ e2)%list. rewrite H2, H1, app_assoc. split; [done | ].
  split; [by apply Forall_app | congruence].
Qed.

(** How the [try] block leaves the frame: the lists gain their entry only
    on the way out of lines 230-236, and the counter only at line 229. *)
Lemma dispatch_try_spec (index : nat) (syn : synapse) (f : frame responses) :
  match dispatch_try inputs_x grads_dy index syn f with
  | (Py.Ok _, f') =>
      locals f' = pushed (locals f)
                    (if has_callback syn then Success else NotImplemented)
                    (if has_callback syn then "Success" else "Not Implemented")
      /\ (if has_callback syn
          then exists x, inputs_x !! index = Some x
                 /\ backward_gradients_count (globals f')
                    = backward_gradients_count (globals f) + size0 x
          else globals f' = globals f)
  | (Py.Raise e, f') =>
      locals f' = locals f /\ has_callback syn = true
      /\ backward_gradients_count (globals f')
         = backward_gradients_count (globals f)
  end.
Proof.
  unfold dispatch_try, has_callback.
  destruct (synapse_callbacks !! synapse_type syn) as [[cb | ] | ]; try done.
  unfold Py.bind, Py.getitem, glob, run_world, record, Py.modify, Py.ret, Py.raise.
  destruct (inputs_x !! index) as [x | ] eqn:Hx; cbn; [ | done].
  destruct (cb x syn (world (globals f))) as [[out | e] w] eqn:Hcb; cbn; [ | done].
  destruct (grads_dy !! index) as [g | ]; cbn; [ | done].
  destruct (autograd_backward _ _ _) as [[[] | e] w'] eqn:Hbw; cbn; [ | done].
  split; [done | ]. by exists x.
Qed.

Lemma dispatch_try_lock_free (index : nat) (syn : synapse) (f : frame responses) :
  lock_free (globals f) (globals (snd (dispatch_try inputs_x grads_dy index syn f))).
Proof.
  unfold dispatch_try.
  destruct (synapse_callbacks !! synapse_type syn) as [[cb | ] | ];
    try apply lock_free_refl.
  unfold Py.bind, Py.getitem, glob, run_world, record, Py.modify, Py.ret, Py.raise.
  destruct (inputs_x !! index) as [x | ] eqn:Hx; cbn; [ | apply lock_free_refl].
  destruct (cb x syn (world (globals f))) as [[out | e] w] eqn:Hcb; cbn.
  2:{ exists [EvCallback (synapse_type syn) index]. repeat split; auto. }
  destruct (grads_dy !! index) as [g | ]; cbn.
  2:{ exists [EvCallback (synapse_type syn) index]. repeat split; auto. }
  destruct (autograd_backward _ _ _) as [[[] | e] w'] eqn:Hbw; cbn.
  all: exists [EvCallback (synapse_type syn) index; EvBackward index];
    rewrite <- app_assoc; repeat split; auto.
Qed.

(** A turn of the loop never raises and appends the entry of its item. *)
Lemma dispatch_item_spec (index : nat) (syn : synapse) (f : frame responses) :
  exists f',
    dispatch_item inputs_x grads_dy index syn f = (Py.Ok tt, f')
    /\ locals f' =
       pushed (locals f)
         (fst (entry_of syn (fst (dispatch_try inputs_x grads_dy index syn f))))
         (snd (entry_of syn (fst (dispatch_try inputs_x grads_dy index syn f))))
    /\ globals f' = globals (snd (dispatch_try inputs_x grads_dy index syn f)).
Proof.
  unfold dispatch_item, Py.try_except.
  pose proof (dispatch_try_spec index syn f) as Hspec.
  destruct (dispatch_try inputs_x grads_dy index syn f) as [[[] | e] f1] eqn:Htry.
  - exists f1. destruct Hspec as [Hl _]. cbn.
    split; [done | ]. split; [ | done].
    rewrite Hl. by destruct (has_callback syn).
  - destruct Hspec as (Hl & _ & _). eexists. split; [reflexivity | ].
    cbn. rewrite <- Hl. done.
Qed.

Lemma entry_not_implemented (index : nat) (syn : synapse) (f : frame responses) :
  fst (entry_of syn (fst (dispatch_try inputs_x grads_dy index syn f)))
    = NotImplemented
  <-> has_callback syn = false.
Proof.
  pose proof (dispatch_try_spec index syn f) as Hspec.
  destruct (dispatch_try inputs_x grads_dy index syn f) as [[[] | e] f1]; cbn.
  - destruct (has_callback syn); cbn; split; congruence.
  - destruct Hspec as (_ & Hcb & _). rewrite Hcb. split; congruence.
Qed.

Lemma dispatch_loop_cons (index : nat) (syn : synapse) (rest : list synapse)
    (f : frame responses) :
  dispatch_loop inputs_x grads_dy index (syn :: rest) f =
  dispatch_loop inputs_x grads_dy (S index) rest
    (snd (dispatch_item inputs_x grads_dy index syn f)).
Proof.
  cbn. unfold Py.bind. fold (dispatch_item inputs_x grads_dy index syn).
  destruct (dispatch_item_spec index syn f) as (f' & Hitem & _).
  by rewrite Hitem.
Qed.

Lemma dispatch_loop_app (l1 l2 : list synapse) (index : nat) (f : frame responses) :
  dispatch_loop inputs_x grads_dy index (l1 ++ l2)%list f =
  dispatch_loop inputs_x grads_dy (index + length l1)%nat l2
    (snd (dispatch_loop inputs_x grads_dy index l1 f)).
Proof.
  revert index f. induction l1 as [ | syn l1 IH]; intros index f.
  - cbn. by rewrite Nat.add_0_r.
  - rewrite <- app_comm_cons, !dispatch_loop_cons, IH. cbn [length].
    by rewrite Nat.add_succ_r.
Qed.

(** The loop never raises; it appends one entry per item, [None] in every
    tensor slot and [NotImplemented] exactly for the items without a
    callback, and none of its calls acquires the lock. *)
Lemma dispatch_loop_spec (synapses : list synapse) (index : nat)
    (f : frame responses) :
  exists f' new_codes new_messages,
    dispatch_loop inputs_x grads_dy index synapses f = (Py.Ok tt, f')
    /\ response_codes (locals f') = (response_codes (locals f) ++ new_codes)%list
    /\ response_messages (locals f')
       = (response_messages (locals f) ++ new_messages)%list
    /\ response_tensors (locals f')
       = (response_tensors (locals f) ++ replicate (length synapses) None)%list
    /\ length new_codes = length synapses
    /\ length new_messages = length synapses
    /\ length (filter (fun c => c = NotImplemented) new_codes)
       = length (filter (fun syn => has_callback syn = false) synapses)
    /\ lock_free (globals f) (globals f').
Proof.
  revert index f. induction synapses as [ | syn rest IH]; intros index f.
  - exists f, [], []. cbn. rewrite !app_nil_r.
    repeat split; auto using lock_free_refl.
  - rewrite dispatch_loop_cons.
    destruct (dispatch_item_spec index syn f) as (f1 & Hitem & Hloc & Hglob).
    rewrite Hitem. cbn [snd].
    destruct (IH (S index) f1)
      as (f' & cs & ms & Hrun & Hc & Hm & Ht & Hlc & Hlm & Hni & Hlf).
    set (r := fst (dispatch_try inputs_x grads_dy index syn f)) in *.
    exists f', (fst (entry_of syn r) :: cs), (snd (entry_of syn r) :: ms).
    split; [done | ].
    rewrite Hc, Hm, Ht, Hloc. cbn [pushed response_codes response_messages
                                    response_tensors length replicate].
    rewrite <- !app_assoc. cbn [app].
    repeat split; try (cbn; congruence).
    + pose proof (entry_not_implemented index syn f) as Hiff. fold r in Hiff.
      rewrite !filter_cons.
      destruct (decide (fst (entry_of syn r) = NotImplemented)) as [Hy | Hn];
        destruct (decide (has_callback syn = false)) as [Hy' | Hn'];
        cbn [length]; try congruence; tauto.
    + eapply lock_free_trans; [ | exact Hlf]. rewrite Hglob.
      apply dispatch_try_lock_free.
Qed.

(** The entry at position [i] is the entry of item [i], decided by how its
    own [try] block ends when the loop reaches it. *)
Lemma dispatch_loop_lookup (synapses : list synapse) (i : nat) (syn : synapse)
    (f : frame responses) :
  synapses !! i = Some syn ->
  let before := snd (dispatch_loop inputs_x grads_dy 0 (take i synapses) f) in
  let after := snd (dispatch_loop inputs_x grads_dy 0 synapses f) in
  let entry := entry_of syn (fst (dispatch_try inputs_x grads_dy i syn before)) in
  response_codes (locals after)
    !! (length (response_codes (locals f)) + i)%nat = Some (fst entry)
  /\ response_messages (locals after)
    !! (length (response_messages (locals f)) + i)%nat = Some (snd entry).
Proof.
  intros Hi. cbn zeta.
  assert (Hlen : length (take i synapses) = i).
  { apply length_take_le. apply Nat.lt_le_incl. by eapply lookup_lt_Some. }
  assert (Hsplit :
    dispatch_loop inputs_x grads_dy 0 synapses f =
    dispatch_loop inputs_x grads_dy (S i) (drop (S i) synapses)
      (snd (dispatch_item inputs_x grads_dy i syn
              (snd (dispatch_loop inputs_x grads_dy 0 (take i synapses) f))))).
  { transitivity (dispatch_loop inputs_x grads_dy 0
                    (take i synapses ++ syn :: drop (S i) synapses)%list f).
    - by rewrite take_drop_middle.
    - by rewrite dispatch_loop_app, Hlen, dispatch_loop_cons. }
  rewrite Hsplit. clear Hsplit.
  destruct (dispatch_loop_spec (take i synapses) 0 f)
    as (f1 & cs1 & ms1 & Hrun1 & Hc1 & Hm1 & _ & Hlc1 & Hlm1 & _).
  rewrite Hrun1. cbn [snd].
  destruct (dispatch_item_spec i syn f1) as (f2 & Hitem & Hloc & _).
  rewrite Hitem. cbn [snd].
  destruct (dispatch_loop_spec (drop (S i) synapses) (S i) f2)
    as (f3 & cs3 & ms3 & Hrun3 & Hc3 & Hm3 & _).
  rewrite Hrun3. cbn [snd].
  rewrite Hc3, Hm3, Hloc. cbn [pushed response_codes response_messages].
  rewrite Hc1, Hm1, Hlen in *.
  split.
  - rewrite <- !app_assoc. rewrite lookup_app_r by lia.
    replace (length (response_codes (locals f)) + i
             - length (response_codes (locals f)))%nat with i by lia.
    rewrite lookup_app_r by lia. rewrite Hlc1, Nat.sub_diag. reflexivity.
  - rewrite <- !app_assoc. rewrite lookup_app_r by lia.
    replace (length (response_messages (locals f)) + i
             - length (response_messages (locals f)))%nat with i by lia.
    rewrite lookup_app_r by lia. rewrite Hlm1, Nat.sub_diag. reflexivity.
Qed.

Lemma enter_with_item (s : state) :
  glob (enter with_item)
    {| globals := s;
       locals := {| response_tensors := []; response_codes := [];
                    response_messages := [] |} |}
  = (Py.Ok tt, entered s)
  /\ locals (entered s)
     = {| response_tensors := []; response_codes := []; response_messages := [] |}
  /\ lock_free s (globals (entered s)).
Proof.
  unfold entered. cbn. repeat split.
  exists [EvEnter (DetectAnomaly true)]. repeat split; auto.
Qed.

(** With remote training on, the dispatcher returns the lists its loop has
    built, after leaving the context it entered. *)
Lemma backward_callback_run (cfg : config) (synapses : list synapse) (s : state) :
  remote_train cfg = true ->
  let after := snd (dispatch_loop inputs_x grads_dy 0 synapses (entered s)) in
  backward_callback cfg inputs_x grads_dy synapses s =
    (Py.Ok (response_tensors (locals after), response_codes (locals after),
            response_messages (locals after)),
     globals (snd (glob (exit_ with_item) after))).
Proof.
  intros Hremote. cbn zeta.
  unfold backward_callback, call. rewrite Hremote. cbn [negb].
  unfold with_, Py.bind at 1 2.
  destruct (enter_with_item s) as (-> & _ & _).
  destruct (dispatch_loop_spec synapses 0 (entered s)) as (f' & cs & ms & Hrun & _).
  rewrite Hrun. reflexivity.
Qed.

Lemma filter_absent {A} `{EqDecision A} (x : A) (l : list A) :
  (forall j, l !! j <> Some x) -> filter (fun y => y = x) l = [].
Proof.
  induction l as [ | y l IH]; intros Hno; [done | ].
  rewrite filter_cons. destruct (decide (y = x)) as [-> | _].
  - by destruct (Hno 0%nat).
  - apply IH. intros j. apply (Hno (S j)).
Qed.

Lemma filter_single {A} `{EqDecision A} (x : A) (l : list A) (i : nat) :
  l !! i = Some x ->
  (forall j, j <> i -> l !! j <> Some x) ->
  length (filter (fun y => y = x) l) = 1%nat.
Proof.
  revert i. induction l as [ | y l IH]; intros i Hi Hothers; [done | ].
  rewrite filter_cons. destruct i as [ | i].
  - injection Hi as ->. rewrite decide_True by done. cbn [length].
    rewrite filter_absent; [done | ].
    intros j. apply (Hothers (S j)). lia.
  - rewrite decide_False.
    + apply (IH i Hi). intros j Hj. apply (Hothers (S j)). lia.
    + intros ->. by apply (Hothers 0%nat).
Qed.

(** C10: every call returns three lists of one length, and every element
    of the first is [None]. *)
Theorem backward_callback_shape
    (cfg : config) (synapses : list synapse) (s : state) :
  exists tensors codes messages s',
    backward_callback cfg inputs_x grads_dy synapses s
      = (Py.Ok (tensors, codes, messages), s')
    /\ length tensors = length codes
    /\ length codes = length messages
    /\ Forall (fun t => t = None) tensors.
Proof.
  destruct (remote_train cfg) eqn:Hremote.
  - rewrite (backward_callback_run cfg synapses s Hremote).
    destruct (dispatch_loop_spec synapses 0 (entered s))
      as (f' & cs & ms & Hrun & Hc & Hm & Ht & Hlc & Hlm & _).
    rewrite Hrun. cbn [snd].
    destruct (enter_with_item s) as (_ & Hloc & _).
    rewrite Hloc in Hc, Hm, Ht. cbn in Hc, Hm, Ht.
    do 4 eexists. split; [reflexivity | ].
    rewrite Hc, Hm, Ht, length_replicate.
    repeat split; try congruence.
    by apply Forall_replicate.
  - unfold backward_callback, call. rewrite Hremote.
    exists [], [], [], s. repeat split. constructor.
Qed.

(** C6: with remote training on, the dispatcher returns without raising;
    its lists have one entry per item; the entries [NotImplemented] are as
    many as the items without a registered callback; the entry of an item
    whose [try] block raises is [UnknownException] with the text of the
    exception, the entry of an item whose block completes is [Success] or
    [NotImplemented]; and when one item alone raises, one entry alone is
    [UnknownException]. *)
Theorem backward_callback_partial_failure
    (cfg : config) (synapses : list synapse) (s : state) :
  remote_train cfg = true ->
  exists tensors codes messages s',
    backward_callback cfg inputs_x grads_dy synapses s
      = (Py.Ok (tensors, codes, messages), s')
    /\ length tensors = length synapses
    /\ length codes = length synapses
    /\ length messages = length synapses
    /\ length (filter (fun c => c = NotImplemented) codes)
       = length (filter (fun syn => has_callback syn = false) synapses)
    /\ (forall i syn,
          synapses !! i = Some syn ->
          match item_outcome inputs_x grads_dy synapses s i syn with
          | Py.Raise e =>
              has_callback syn = true
              /\ codes !! i = Some UnknownException
              /\ messages !! i = Some (Py.str e)
          | Py.Ok _ =>
              codes !! i
              = Some (if has_callback syn then Success else NotImplemented)
          end)
    /\ (forall i syn e,
          synapses !! i = Some syn ->
          item_outcome inputs_x grads_dy synapses s i syn = Py.Raise e ->
          (forall j synj,
             j <> i -> synapses !! j = Some synj ->
             item_outcome inputs_x grads_dy synapses s j synj = Py.Ok tt) ->
          length (filter (fun c => c = UnknownException) codes) = 1%nat).
Proof.
  intros Hremote.
  rewrite (backward_callback_run cfg synapses s Hremote).
  destruct (dispatch_loop_spec synapses 0 (entered s))
    as (f' & cs & ms & Hrun & Hc & Hm & Ht & Hlc & Hlm & Hni & _).
  destruct (enter_with_item s) as (_ & Hloc & _).
  assert (Hpoint : forall i syn,
    synapses !! i = Some syn ->
    response_codes (locals f') !! i
      = Some (fst (entry_of syn (item_outcome inputs_x grads_dy synapses s i syn)))
    /\ response_messages (locals f') !! i
      = Some (snd (entry_of syn (item_outcome inputs_x grads_dy synapses s i syn)))).
  { intros i syn Hi.
    pose proof (dispatch_loop_lookup synapses i syn (entered s) Hi) as Hlook.
    cbn zeta in Hlook. rewrite Hrun, Hloc in Hlook. exact Hlook. }
  rewrite Hrun. cbn [snd].
  rewrite Hloc in Hc, Hm, Ht. cbn in Hc, Hm, Ht.
  do 4 eexists. split; [reflexivity | ].
  split; [by rewrite Ht, length_replicate | ].
  split; [by rewrite Hc | ].
  split; [by rewrite Hm | ].
  split; [by rewrite Hc | ].
  split.
  - intros i syn Hi. destruct (Hpoint i syn Hi) as [Hci Hmi].
    unfold item_outcome in *.
    pose proof (dispatch_try_spec i syn (frame_at inputs_x grads_dy synapses s i))
      as Hspec.
    destruct (dispatch_try inputs_x grads_dy i syn
                (frame_at inputs_x grads_dy synapses s i)) as [[[] | e] f1].
    + cbn in Hci. rewrite Hci. by destruct (has_callback syn).
    + destruct Hspec as (_ & Hcb & _). cbn in Hci, Hmi. cbn. auto.
  - intros i syn e Hi Hraise Hothers.
    apply (filter_single UnknownException _ i).
    + destruct (Hpoint i syn Hi) as [Hci _]. by rewrite Hraise in Hci.
    + intros j Hj Hcj.
      destruct (synapses !! j) as [synj | ] eqn:Hsj.
      * destruct (Hpoint j synj Hsj) as [Hcj' _].
        rewrite (Hothers j synj Hj Hsj) in Hcj'. cbn in Hcj'.
        rewrite Hcj in Hcj'. by destruct (has_callback synj).
      * apply lookup_ge_None in Hsj. apply lookup_lt_Some in Hcj.
        rewrite Hc in Hcj. lia.
Qed.

(** The dispatcher enters the anomaly-detection context alone: from call
    to return the lock is never acquired. *)
Lemma backward_callback_lock_free
    (cfg : config) (synapses : list synapse) (s : state) :
  lock_free s (snd (backward_callback cfg inputs_x grads_dy synapses s)).
Proof.
  destruct (remote_train cfg) eqn:Hremote.
  - rewrite (backward_callback_run cfg synapses s Hremote). cbn [snd].
    destruct (dispatch_loop_spec synapses 0 (entered s))
      as (f' & cs & ms & Hrun & _ & _ & _ & _ & _ & _ & Hfree).
    rewrite Hrun. cbn [snd].
    destruct (enter_with_item s) as (_ & _ & Henter).
    eapply lock_free_trans; [exact Henter | ].
    eapply lock_free_trans; [exact Hfree | ].
    exists [EvExit (DetectAnomaly true)]. cbn. repeat split; auto.
  - unfold backward_callback, call. rewrite Hremote. apply lock_free_refl.
Qed.

(** A turn of the loop adds the sample count of its item to the counter
    when the item is dispatched with success, and nothing otherwise. *)
Lemma dispatch_item_counter (index : nat) (syn : synapse) (f : frame responses) :
  let f' := snd (dispatch_item inputs_x grads_dy index syn f) in
  match fst (dispatch_try inputs_x grads_dy index syn f) with
  | Py.Ok _ =>
      if has_callback syn
      then exists x, inputs_x !! index = Some x
             /\ backward_gradients_count (globals f')
                = backward_gradients_count (globals f) + size0 x
      else backward_gradients_count (globals f')
           = backward_gradients_count (globals f)
  | Py.Raise _ =>
      backward_gradients_count (globals f') = backward_gradients_count (globals f)
  end.
Proof.
  cbn zeta.
  destruct (dispatch_item_spec index syn f) as (f' & Hitem & _ & Hglob).
  rewrite Hitem. cbn [snd]. rewrite Hglob.
  pose proof (dispatch_try_spec index syn f) as Hspec.
  destruct (dispatch_try inputs_x grads_dy index syn f) as [[[] | e] f1]; cbn.
  - destruct Hspec as [_ Hcount]. destruct (has_callback syn); [done | ].
    by rewrite Hcount.
  - by destruct Hspec as (_ & _ & Hcount).
Qed.

End Dispatcher.


Section Scheduler.
Context `{Collaborators}.

(** The update of lines 312-329 never writes the counter: it writes the
    attribute [backward_gradients] (line 323). *)
Lemma maybe_update_counter (cfg : config) (f : frame serve_locals) :
  backward_gradients_count (globals (snd (maybe_update cfg f)))
  = backward_gradients_count (globals f).
Proof.
  unfold maybe_update, Py.bind, Py.get, glob, read_losses, loc_get, loc_modify,
    emit, Py.modify, Py.ret, Py.raise. cbn.
  destruct (update_due cfg f); [ | done].
  destruct (backward_gradients_count (globals f) >? 0); cbn;
    destruct (losses (locals f)); cbn; try done;
    destruct (iteration (locals f) =? 0)%Z; cbn; try done;
    destruct (Qlt_bool _ _); done.
Qed.

(** When the condition of line 312 holds, the optimizer step is taken and
    [backward_gradients] is set to 0. *)
Lemma maybe_update_steps (cfg : config) (f : frame serve_locals) :
  update_due cfg f = true ->
  let s' := globals (snd (maybe_update cfg f)) in
  backward_gradients s' = Some 0
  /\ exists evs,
       trace s' = (trace (globals f) ++
                   [EvClipGradNorm; EvOptimizerStep (lr s'); EvZeroGrad] ++ evs)%list
       /\ (evs = [] \/ evs = [EvModelSave])
       /\ lr s' = (if backward_gradients_count (globals f) >? 0
                   then (1 # 10) / inject_Z (backward_gradients_count (globals f))
                   else 1 # 10)%Q.
Proof.
  intros Hdue. cbn zeta.
  unfold maybe_update, Py.bind, Py.get, glob, read_losses, loc_get, loc_modify,
    emit, Py.modify, Py.ret, Py.raise. cbn.
  rewrite Hdue.
  destruct (backward_gradients_count (globals f) >? 0); cbn;
    destruct (losses (locals f)); cbn;
    try (split; [done | ]; exists []; rewrite <- !app_assoc; by auto);
    destruct (iteration (locals f) =? 0)%Z; cbn;
    try (split; [done | ]; exists []; rewrite <- !app_assoc; by auto);
    destruct (Qlt_bool _ _); cbn;
    (split; [done | ]);
    try (exists []; rewrite <- !app_assoc; by auto);
    exists [EvModelSave]; rewrite <- !app_assoc; by auto.
Qed.

Lemma maybe_update_lock_free (cfg : config) (f : frame serve_locals) :
  lock_free (globals f) (globals (snd (maybe_update cfg f))).
Proof.
  destruct (update_due cfg f) eqn:Hdue.
  - destruct (maybe_update_steps cfg f Hdue) as (_ & evs & Htrace & Hevs & _).
    eexists. split; [exact Htrace | ]. split.
    + destruct Hevs as [-> | ->]; repeat constructor; discriminate.
    + unfold maybe_update, Py.bind, Py.get, glob, read_losses, loc_get,
        loc_modify, emit, Py.modify, Py.ret, Py.raise. cbn. rewrite Hdue.
      destruct (backward_gradients_count (globals f) >? 0); cbn;
        destruct (losses (locals f)); cbn; try done;
        destruct (iteration (locals f) =? 0)%Z; cbn; try done;
        destruct (Qlt_bool _ _); done.
  - unfold maybe_update, Py.bind, Py.get, glob. cbn. rewrite Hdue.
    exists []. cbn. by rewrite app_nil_r.
Qed.

End Scheduler.


(** C1 (the code departs from it): when the condition of line 312 holds
    the optimizer step is taken, and after it the counter
    [backward_gradients_count] holds what it held before: line 323 sets
    [backward_gradients] to 0 instead. *)
Theorem update_keeps_gradient_count `{Collaborators}
    (cfg : config) (f : frame serve_locals) :
  update_due cfg f = true ->
  let s' := globals (snd (maybe_update cfg f)) in
  (exists evs,
     trace s' = (trace (globals f) ++
                 [EvClipGradNorm; EvOptimizerStep (lr s'); EvZeroGrad] ++ evs)%list)
  /\ backward_gradients_count s' = backward_gradients_count (globals f)
  /\ backward_gradients s' = Some 0.
Proof.
  intros Hdue. cbn zeta.
  destruct (maybe_update_steps cfg f Hdue) as (Hattr & evs & Htrace & _).
  split; [by exists evs | ].
  split; [apply maybe_update_counter | exact Hattr].
Qed.

Lemma update_keeps_gradient_count_witness :
  backward_gradients_count
    (globals (snd (@maybe_update Samples.node (Samples.cfg true true 1)
                     (Samples.updating 4 1 (Some 2%Q))))) = 4
  /\ backward_gradients
       (globals (snd (@maybe_update Samples.node (Samples.cfg true true 1)
                        (Samples.updating 4 1 (Some 2%Q))))) = Some 0.
Proof.
  apply (@update_keeps_gradient_count Samples.node (Samples.cfg true true 1)
           (Samples.updating 4 1 (Some 2%Q))).
  reflexivity.
Defined.

(** C2 (the code departs from it): the object given to [with] at line 218
    is the anomaly-detection context, the lock is acquired neither by a
    call of the dispatcher nor by the update of lines 312-329, and the
    lock is as it was when either returns. *)
Theorem lock_never_acquired `{Collaborators}
    (cfg : config) (inputs_x : list input_item) (grads_dy : list grad_item)
    (synapses : list synapse) (s : state) (f : frame serve_locals) :
  with_item = DetectAnomaly true
  /\ lock_free s (snd (backward_callback cfg inputs_x grads_dy synapses s))
  /\ lock_free (globals f) (globals (snd (maybe_update cfg f))).
Proof.
  split; [reflexivity | ].
  split; [apply backward_callback_lock_free | apply maybe_update_lock_free].
Qed.

(** The calls of a dispatch on the sample batch and of an update. *)
Example dispatcher_and_update_traces :
  trace (snd (@backward_callback Samples.node (Samples.cfg true false 0)
                Samples.batch_inputs Samples.batch_grads Samples.batch_synapses
                (Samples.shared 0 ∅)))
  = [EvEnter (DetectAnomaly true); EvCallback 1 0; EvBackward 0; EvCallback 2 2;
     EvExit (DetectAnomaly true)]
  /\ trace (globals (snd (@maybe_update Samples.node (Samples.cfg true true 1)
                            (Samples.updating 4 1 (Some 200%Q)))))
  = [EvClipGradNorm; EvOptimizerStep (1 # 40); EvZeroGrad].
Proof. vm_compute. split; reflexivity. Qed.


(** C3 (the code departs from it): at the end of a turn without local
    iteration, with remote training on and samples pending, the optimizer
    step is taken with learning rate 0.1 / count, and line 325 then raises
    ([losses] is unbound, or the division is by zero): the exception
    leaves [serve] before the report, [local_data] and [best_loss] are as
    they were and no checkpoint is written. *)
Theorem remote_only_update_raises `{Collaborators}
    (cfg : config) (f : frame serve_locals) :
  iteration (locals f) = 0 ->
  remote_train cfg = true ->
  0 < backward_gradients_count (globals f) ->
  exists e f',
    finish_epoch cfg f = (Py.Raise e, f')
    /\ (Py.kind e = Py.UnboundLocalError \/ Py.kind e = Py.ZeroDivisionError)
    /\ trace (globals f')
       = (trace (globals f) ++
          [EvClipGradNorm;
           EvOptimizerStep ((1 # 10) / inject_Z (backward_gradients_count (globals f)));
           EvZeroGrad])%list
    /\ locals f' = locals f
    /\ best_loss (globals f') = best_loss (globals f).
Proof.
  intros Hiter Hremote Hcount.
  assert (Hpos : (backward_gradients_count (globals f) >? 0) = true) by lia.
  assert (Hdue : update_due cfg f = true).
  { unfold update_due. rewrite Hremote, Hpos. apply orb_true_r. }
  unfold finish_epoch, maybe_update, Py.bind, Py.get, glob, read_losses, loc_get,
    loc_modify, emit, Py.modify, Py.ret, Py.raise. cbn.
  rewrite Hdue, Hpos. cbn.
  destruct (losses (locals f)) as [total | ]; cbn.
  - rewrite Hiter. cbn. do 2 eexists. split; [reflexivity | ]. cbn.
    rewrite <- !app_assoc. by auto.
  - do 2 eexists. split; [reflexivity | ]. cbn.
    rewrite <- !app_assoc. by auto.
Qed.

Lemma remote_only_update_raises_witness :
  exists e f',
    @finish_epoch Samples.node (Samples.cfg true false 1)
      (Samples.updating 3 0 None) = (Py.Raise e, f')
    /\ (Py.kind e = Py.UnboundLocalError \/ Py.kind e = Py.ZeroDivisionError)
    /\ trace (globals f')
       = [EvClipGradNorm; EvOptimizerStep ((1 # 10) / inject_Z 3); EvZeroGrad]
    /\ locals f' = locals (Samples.updating 3 0 None)
    /\ best_loss (globals f') = 100%Q.
Proof.
  apply (@remote_only_update_raises Samples.node (Samples.cfg true false 1)
           (Samples.updating 3 0 None)).
  - reflexivity.
  - reflexivity.
  - vm_compute. reflexivity.
Defined.

(** The first turn of a node that trains on remote gradients only, with
    three samples pending: [serve] ends on [UnboundLocalError]. *)
Example remote_only_first_epoch :
  option_map fst (@epoch Samples.node (Samples.cfg true false 0) 5
                    (Samples.entering 3))
  = Some (Py.Raise (Py.Exn Py.UnboundLocalError
            "local variable 'losses' referenced before assignment")).
Proof. vm_compute. reflexivity. Qed.


Lemma backward_callback_partial_failure_witness :
  exists tensors codes messages s',
    @backward_callback Samples.node (Samples.cfg true false 0)
      Samples.batch_inputs Samples.batch_grads Samples.batch_synapses
      (Samples.shared 0 ∅) = (Py.Ok (tensors, codes, messages), s')
    /\ length codes = 4%nat
    /\ length (filter (fun c => c = NotImplemented) codes) = 2%nat
    /\ codes !! 2%nat = Some UnknownException
    /\ messages !! 2%nat = Some "callback failed"
    /\ length (filter (fun c => c = UnknownException) codes) = 1%nat.
Proof.
  destruct (@backward_callback_partial_failure Samples.node
              Samples.batch_inputs Samples.batch_grads
              (Samples.cfg true false 0) Samples.batch_synapses
              (Samples.shared 0 ∅) eq_refl)
    as (tensors & codes & messages & s' & Hrun & _ & Hlc & _ & Hni & Hpoint & Hone).
  exists tensors, codes, messages, s'.
  split; [exact Hrun | ].
  split; [exact Hlc | ].
  split; [rewrite Hni; vm_compute; reflexivity | ].
  pose proof (Hpoint 2%nat {| synapse_type := 2 |} eq_refl) as Hbad.
  vm_compute in Hbad. destruct Hbad as (_ & Hcode & Hmsg).
  split; [exact Hcode | ].
  split; [exact Hmsg | ].
  apply (Hone 2%nat {| synapse_type := 2 |}
           (Py.Exn Py.RuntimeError "callback failed") eq_refl).
  - vm_compute. reflexivity.
  - intros j synj Hj Hsj.
    destruct j as [ | [ | [ | [ | j]]]]; try done;
      cbn in Hsj; injection Hsj as <-; vm_compute; reflexivity.
Defined.


Section Loops.
Context {S : Type}.
Variables (I : S -> Prop) (cond : S -> bool) (body : Py.M S unit).
Hypothesis body_keeps :
  forall s, I s -> cond s = true -> exists s', body s = (Py.Ok tt, s') /\ I s'.

(** A loop whose body keeps [I] and does not raise ends, when it ends,
    without an exception, with [I] and with its condition false. *)
Lemma while_inv (fuel : nat) (s : S) (r : Py.result unit) (s' : S) :
  I s -> while_ fuel cond body s = Some (r, s') ->
  r = Py.Ok tt /\ I s' /\ cond s' = false.
Proof.
  revert s. induction fuel as [ | fuel IH]; intros s HI Hrun; [done | ].
  cbn in Hrun. destruct (cond s) eqn:Hc.
  - destruct (body_keeps s HI Hc) as (s1 & Hbody & HI1).
    rewrite Hbody in Hrun. by apply (IH s1).
  - by injection Hrun as <- <-.
Qed.

(** Such a loop ends when every turn lowers a measure. *)
Lemma while_total (mu : S -> nat) :
  (forall s s', I s -> cond s = true -> body s = (Py.Ok tt, s') ->
                (mu s' < mu s)%nat) ->
  forall s, I s -> exists fuel s', while_ fuel cond body s = Some (Py.Ok tt, s').
Proof.
  intros Hmu s. remember (mu s) as m eqn:Hm. revert s Hm.
  induction m as [m IH] using lt_wf_ind. intros s -> HI.
  destruct (cond s) eqn:Hc.
  - destruct (body_keeps s HI Hc) as (s1 & Hbody & HI1).
    destruct (IH (mu s1) (Hmu s s1 HI Hc Hbody) s1 eq_refl HI1) as (fuel & s' & Hrun).
    exists (Datatypes.S fuel), s'. cbn. by rewrite Hc, Hbody.
  - exists 1%nat, s. cbn. by rewrite Hc.
Qed.

End Loops.


Section TrainOrWait.
Context `{Collaborators}.

Lemma train_step_keeps (e c0 : Z) (b0 : nat) (f : frame serve_locals) :
  training_inv e c0 b0 f -> in_epoch f = true ->
  exists f', train_step f = (Py.Ok tt, f') /\ training_inv e c0 b0 f'.
Proof.
  intros (He & Hit & Hlo & Hb & Hc) _.
  unfold train_step, Py.bind, loc_get, glob, get_current_block, model_on_next_batch,
    read_losses, loc_modify, emit, Py.get, Py.modify, Py.ret, Py.raise. cbn.
  destruct (current_block (locals f) =? clock (ticks (globals f)))%Z; cbn.
  - eexists. split; [reflexivity | ]. by repeat split.
  - destruct (iteration (locals f) >? 0) eqn:Hpos; cbn.
    + destruct (losses (locals f)) as [acc | ] eqn:Hacc; cbn.
      * eexists. split; [reflexivity | ]. unfold training_inv. cbn.
        repeat split; try done; try lia.
      * exfalso. apply Hlo; [lia | done].
    + eexists. split; [reflexivity | ]. unfold training_inv. cbn.
      repeat split; try done; try lia.
Qed.

Lemma train_step_lowers (n : nat) (e c0 : Z) (b0 : nat) (f f' : frame serve_locals) :
  (forall m, (n <= m)%nat -> e < clock m) ->
  training_inv e c0 b0 f -> in_epoch f = true ->
  train_step f = (Py.Ok tt, f') ->
  (turns_left n f' < turns_left n f)%nat.
Proof.
  intros Hpast (He & Hit & Hlo & Hb & Hc) Hin.
  unfold turns_left. rewrite Hin.
  unfold in_epoch in *. rewrite He in Hin.
  unfold train_step, Py.bind, loc_get, glob, get_current_block, model_on_next_batch,
    read_losses, loc_modify, emit, Py.get, Py.modify, Py.ret, Py.raise. cbn.
  destruct (Z.eqb_spec (current_block (locals f)) (clock (ticks (globals f))))
    as [Heq | Hne]; cbn.
  - intros [= <-]. cbn. rewrite He.
    destruct (e >=? current_block (locals f)) eqn:Hin'; [ | lia].
    destruct (Nat.le_gt_cases n (ticks (globals f))) as [Hle | Hlt]; [ | lia].
    pose proof (Hpast _ Hle). lia.
  - destruct (iteration (locals f) >? 0) eqn:Hpos; cbn.
    + destruct (losses (locals f)) as [acc | ]; cbn; [ | done].
      intros [= <-]. cbn. rewrite He.
      destruct (e >=? clock (S (ticks (globals f)))) eqn:Hin'; [ | lia].
      destruct (Nat.le_gt_cases n (S (ticks (globals f)))) as [Hle | Hlt]; [ | lia].
      pose proof (Hpast _ Hle). lia.
    + intros [= <-]. cbn. rewrite He.
      destruct (e >=? clock (S (ticks (globals f)))) eqn:Hin'; [ | lia].
      destruct (Nat.le_gt_cases n (S (ticks (globals f)))) as [Hle | Hlt]; [ | lia].
      pose proof (Hpast _ Hle). lia.
Qed.

Lemma wait_step_keeps (e i0 : Z) (b0 : nat) (f : frame serve_locals) :
  waiting_inv e i0 b0 f -> in_epoch f = true ->
  exists f', wait_step f = (Py.Ok tt, f') /\ waiting_inv e i0 b0 f'.
Proof.
  intros (He & Hit & Hb) _. eexists. split; [reflexivity | ]. by repeat split.
Qed.

Lemma wait_step_lowers (n : nat) (e i0 : Z) (b0 : nat) (f f' : frame serve_locals) :
  (forall m, (n <= m)%nat -> e < clock m) ->
  waiting_inv e i0 b0 f -> in_epoch f = true ->
  wait_step f = (Py.Ok tt, f') ->
  (turns_left n f' < turns_left n f)%nat.
Proof.
  intros Hpast (He & Hit & Hb) Hin.
  unfold turns_left. rewrite Hin. unfold in_epoch in *. rewrite He in Hin.
  intros [= <-]. cbn. rewrite He.
  destruct (e >=? clock (ticks (globals f))) eqn:Hin'; [ | lia].
  destruct (Nat.le_gt_cases n (ticks (globals f))) as [Hle | Hlt]; [ | lia].
  pose proof (Hpast _ Hle). lia.
Qed.

Lemma epoch_start_spec (cfg : config) (f : frame serve_locals) :
  hotkey ∈ hotkeys metagraph ->
  exists f1,
    epoch_start cfg f = (Py.Ok tt, f1)
    /\ iteration (locals f1) = 0
    /\ current_block (locals f1) = clock (ticks (globals f))
    /\ end_block (locals f1) = clock (ticks (globals f)) + blocks_per_epoch cfg
    /\ batches (globals f1) = batches (globals f).
Proof.
  intros Hreg.
  unfold epoch_start, list_index, Py.bind, loc_modify, glob, get_current_block,
    Py.modify, Py.ret, Py.raise. cbn.
  destruct (list_find (fun y => y = hotkey) (hotkeys metagraph)) as [[u y] | ] eqn:Hfind.
  - cbn. eexists. split; [reflexivity | ]. by repeat split.
  - apply list_find_None in Hfind. rewrite Forall_forall in Hfind.
    apply list_elem_of_In in Hreg. by destruct (Hfind hotkey Hreg).
Qed.

Lemma backward_local_loss_spec (e c0 : Z) (b0 : nat) (f : frame serve_locals) :
  training_inv e c0 b0 f ->
  exists f',
    backward_local_loss f = (Py.Ok tt, f')
    /\ locals f' = locals f
    /\ batches (globals f') = batches (globals f).
Proof.
  intros (He & Hit & Hlo & Hb & Hc).
  unfold backward_local_loss, Py.bind, loc_get, glob, read_losses, emit, Py.modify,
    Py.ret, Py.raise. cbn.
  destruct (Z.eqb_spec (iteration (locals f)) 0) as [Hz | Hnz]; cbn.
  - by eexists.
  - destruct (losses (locals f)) as [acc | ] eqn:Hacc; cbn.
    + by eexists.
    + exfalso. apply Hlo; [lia | done].
Qed.


(** A turn with [blocks_per_epoch] 0 on a node whose hotkey is listed:
    what holds whenever line 312 is reached. *)
Lemma zero_blocks_epoch_safe (cfg : config) (f : frame serve_locals)
    (fuel : nat) (r : Py.result unit) (f2 : frame serve_locals) :
  blocks_per_epoch cfg = 0 ->
  hotkey ∈ hotkeys metagraph ->
  reach_update cfg fuel f = Some (r, f2) ->
  r = Py.Ok tt
  /\ batches (globals f2)
     = (batches (globals f) + Z.to_nat (iteration (locals f2)))%nat
  /\ if local_train cfg then 1 <= iteration (locals f2)
     else iteration (locals f2) = 0.
Proof.
  intros Hzero Hreg.
  destruct (epoch_start_spec cfg f Hreg) as (f1 & Hstart & Hit & Hcur & Hend & Hb).
  rewrite Hzero, Z.add_0_r in Hend.
  unfold reach_update. rewrite Hstart. unfold train_or_wait.
  set (e := clock (ticks (globals f))) in *.
  destruct (local_train cfg).
  - assert (Hinv : training_inv e e (batches (globals f)) f1).
    { unfold training_inv. rewrite Hit, Hend, Hcur, Hb. cbn.
      repeat split; try done; lia. }
    intros Hrun.
    destruct (while_ fuel in_epoch train_step f1) as [[r' f'] | ] eqn:Hloop;
      [ | done].
    destruct (while_inv _ _ _ (train_step_keeps e e _) fuel f1 r' f' Hinv Hloop)
      as (-> & Hinv' & Hout).
    destruct (backward_local_loss_spec e e _ f' Hinv') as (f2' & Hback & Hloc & Hb').
    rewrite Hback in Hrun. injection Hrun as <- <-.
    destruct Hinv' as (He' & Hit' & _ & Hb'' & Hc').
    rewrite Hloc, Hb', Hb''. split; [done | ]. split; [done | ].
    unfold in_epoch in Hout. rewrite He' in Hout.
    destruct (Z.eq_dec (iteration (locals f')) 0) as [Hz | Hnz]; [ | lia].
    rewrite (Hc' Hz) in Hout. lia.
  - assert (Hinv : waiting_inv e 0 (batches (globals f)) f1).
    { unfold waiting_inv. by rewrite Hit, Hend, Hb. }
    intros Hrun.
    destruct (while_inv _ _ _ (wait_step_keeps e 0 _) fuel f1 r f2 Hinv Hrun)
      as (-> & (_ & Hit' & Hb') & _).
    rewrite Hit', Hb'. split; [done | ]. split; [cbn; lia | done].
Qed.

(** Such a turn reaches line 312 once the chain is past the start block. *)
Lemma zero_blocks_epoch_ends (cfg : config) (f : frame serve_locals) :
  blocks_per_epoch cfg = 0 ->
  hotkey ∈ hotkeys metagraph ->
  (exists n, forall m, (n <= m)%nat -> clock (ticks (globals f)) < clock m) ->
  exists fuel f2, reach_update cfg fuel f = Some (Py.Ok tt, f2).
Proof.
  intros Hzero Hreg [n Hpast].
  destruct (epoch_start_spec cfg f Hreg) as (f1 & Hstart & Hit & Hcur & Hend & Hb).
  rewrite Hzero, Z.add_0_r in Hend.
  unfold reach_update. rewrite Hstart. unfold train_or_wait.
  set (e := clock (ticks (globals f))) in *.
  destruct (local_train cfg).
  - assert (Hinv : training_inv e e (batches (globals f)) f1).
    { unfold training_inv. rewrite Hit, Hend, Hcur, Hb. cbn.
      repeat split; try done; lia. }
    destruct (while_total (training_inv e e (batches (globals f))) in_epoch
                train_step (train_step_keeps e e _) (turns_left n)
                (fun s s' => train_step_lowers n e e _ s s' Hpast) f1 Hinv)
      as (fuel & f' & Hrun).
    destruct (while_inv _ _ _ (train_step_keeps e e _) fuel f1 _ f' Hinv Hrun)
      as (_ & Hinv' & _).
    destruct (backward_local_loss_spec e e _ f' Hinv') as (f2 & Hback & _).
    exists fuel, f2. by rewrite Hrun, Hback.
  - assert (Hinv : waiting_inv e 0 (batches (globals f)) f1).
    { unfold waiting_inv. by rewrite Hit, Hend, Hb. }
    apply (while_total (waiting_inv e 0 (batches (globals f))) in_epoch
             wait_step (wait_step_keeps e 0 _) (turns_left n)
             (fun s s' => wait_step_lowers n e 0 _ s s' Hpast) f1 Hinv).
Qed.

(** A turn reaches line 312 only on a node whose hotkey the metagraph
    lists: line 286 raises otherwise. *)
Lemma reach_update_registered (cfg : config) (fuel : nat)
    (f f2 : frame serve_locals) :
  reach_update cfg fuel f = Some (Py.Ok tt, f2) -> hotkey ∈ hotkeys metagraph.
Proof.
  unfold reach_update, epoch_start, list_index, Py.bind, loc_modify, glob, record,
    Py.modify, Py.raise. cbn.
  destruct (list_find (fun y => y = hotkey) (hotkeys metagraph))
    as [[u y] | ] eqn:Hfind; cbn; [ | done].
  intros _. apply list_find_Some in Hfind as (Hu & -> & _).
  by eapply list_elem_of_lookup_2.
Qed.

(** C4 (as the code has it): in a turn run with [blocks_per_epoch] 0,
    whenever the update is reached, with local training off no batch has
    been drawn and no iteration made, and with local training on at least
    one iteration has been made, each drawing one batch: the loop of line
    291 still runs at the end block. The update is reached, without an
    exception, on every node whose hotkey the metagraph lists, once the
    readings of the chain are past the start block. *)
Theorem zero_blocks_epoch (cfg : config) (f : frame serve_locals) :
  blocks_per_epoch cfg = 0 ->
  (forall fuel f2,
     reach_update cfg fuel f = Some (Py.Ok tt, f2) ->
     batches (globals f2)
     = (batches (globals f) + Z.to_nat (iteration (locals f2)))%nat
     /\ if local_train cfg then 1 <= iteration (locals f2)
        else iteration (locals f2) = 0)
  /\ (hotkey ∈ hotkeys metagraph ->
      (exists n, forall m, (n <= m)%nat -> clock (ticks (globals f)) < clock m) ->
      (exists fuel f2, reach_update cfg fuel f = Some (Py.Ok tt, f2))
      /\ (forall fuel r f2,
            reach_update cfg fuel f = Some (r, f2) -> r = Py.Ok tt)).
Proof.
  intros Hzero. split.
  - intros fuel f2 Hrun.
    pose proof (reach_update_registered cfg fuel f f2 Hrun) as Hreg.
    by destruct (zero_blocks_epoch_safe cfg f fuel _ f2 Hzero Hreg Hrun) as (_ & ?).
  - intros Hreg Hpast. split.
    + by apply zero_blocks_epoch_ends.
    + intros fuel r f2 Hrun.
      by destruct (zero_blocks_epoch_safe cfg f fuel r f2 Hzero Hreg Hrun).
Qed.

End TrainOrWait.

Lemma zero_blocks_epoch_witness :
  (exists fuel f2,
     @reach_update Samples.node (Samples.cfg true true 0) fuel (Samples.entering 0)
     = Some (Py.Ok tt, f2))
  /\ (forall f2,
        @reach_update Samples.node (Samples.cfg true true 0) 5 (Samples.entering 0)
        = Some (Py.Ok tt, f2) ->
        1 <= iteration (locals f2)).
Proof.
  destruct (@zero_blocks_epoch Samples.node (Samples.cfg true true 0)
              (Samples.entering 0) eq_refl) as [Hsafe Hends].
  split.
  - apply Hends.
    + vm_compute. apply list_elem_of_here.
    + exists 1%nat. intros m Hm. cbn. lia.
  - intros f2 Hrun. apply (Hsafe 5%nat f2 Hrun).
Defined.

(** C4 fails as stated: a turn with [blocks_per_epoch] 0 and local
    training on, on a chain that gains a block at every reading, draws one
    batch and makes one iteration before the update. *)
Lemma zero_blocks_epoch_draws_batch :
  blocks_per_epoch (Samples.cfg true true 0) = 0
  /\ batches (globals (Samples.entering 0)) = 0%nat
  /\ option_map
       (fun rf => (fst rf, iteration (locals (snd rf)),
                   batches (globals (snd rf)), trace (globals (snd rf))))
       (@reach_update Samples.node (Samples.cfg true true 0) 5 (Samples.entering 0))
     = Some (Py.Ok tt, 1, 1%nat, [EvNeuronForPubkey; EvNextBatch 0; EvLossBackward]).
Proof. vm_compute. repeat split; reflexivity. Qed.


Section AdmissionChecks.
Context `{Collaborators}.

Lemma Qlt_bool_iff (a b : Q) : Qlt_bool a b = true <-> (a < b)%Q.
Proof.
  unfold Qlt_bool. rewrite negb_true_iff. split.
  - intros Hf. apply Qnot_le_lt. intros Hle.
    apply Qle_bool_iff in Hle. congruence.
  - intros Hlt. destruct (Qle_bool b a) eqn:Hle; [ | done].
    apply Qle_bool_iff in Hle. by destruct (Qlt_not_le _ _ Hlt).
Qed.

Lemma list_index_missing {S} (x : string) (l : list string) (s : S) :
  x ∉ l -> exists m, list_index x l s = (Py.Raise (Py.Exn Py.ValueError m), s).
Proof.
  intros Hno. unfold list_index.
  destruct (list_find (fun y => y = x) l) as [[i y] | ] eqn:Hfind.
  - apply list_find_Some in Hfind as (Hi & -> & _).
    destruct Hno. by eapply list_elem_of_lookup_2.
  - by eexists.
Qed.

Lemma list_index_first {S} (x : string) (l : list string) (i : nat) (s : S) :
  l !! i = Some x -> (forall j, (j < i)%nat -> l !! j <> Some x) ->
  list_index x l s = (Py.Ok i, s).
Proof.
  intros Hi Hfirst. unfold list_index.
  destruct (list_find (fun y => y = x) l) as [[k y] | ] eqn:Hfind.
  - apply list_find_Some in Hfind as (Hk & -> & Hmin).
    destruct (Nat.lt_trichotomy k i) as [Hlt | [-> | Hgt]]; [ | done | ].
    + by destruct (Hfirst k Hlt).
    + by destruct (Hmin i x Hi Hgt).
  - apply list_find_None in Hfind. rewrite Forall_forall in Hfind.
    destruct (Hfind x); [ | done]. apply list_elem_of_In.
    by eapply list_elem_of_lookup_2.
Qed.

(** X6: a caller whose key is not among the hotkeys passes
    [registration_check] when unregistered callers are allowed and is
    rejected by it otherwise, while [stake_check] and [validator_check]
    raise [ValueError] from [hotkeys.index] instead of their own
    rejection; none of the three changes the shared objects. *)
Theorem unregistered_key_checks (cfg : config) (pubkey : string) (s : state) :
  pubkey ∉ hotkeys metagraph ->
  registration_check cfg pubkey s
    = (if blacklist_allow_non_registered cfg then Py.Ok (Some false)
       else Py.Raise (Py.Exn Py.Exception "Registration blacklist"), s)
  /\ (exists m, stake_check cfg pubkey s = (Py.Raise (Py.Exn Py.ValueError m), s))
  /\ (exists m, validator_check pubkey s = (Py.Raise (Py.Exn Py.ValueError m), s)).
Proof.
  intros Hno. split; [ | split].
  - unfold registration_check. rewrite bool_decide_eq_false_2 by done. cbn.
    by destruct (blacklist_allow_non_registered cfg).
  - destruct (list_index_missing pubkey (hotkeys metagraph) s Hno) as [m Hm].
    exists m. unfold stake_check, Py.bind. by rewrite Hm.
  - destruct (list_index_missing pubkey (hotkeys metagraph) s Hno) as [m Hm].
    exists m. unfold validator_check, Py.bind. by rewrite Hm.
Qed.

(** X7: for a caller registered at position [uid] (the first position of
    its key), [registration_check] falls through, [stake_check] rejects
    exactly when the stake at [uid] is below the configured minimum, and
    [validator_check] rejects exactly when fewer than
    [min_allowed_weights] weights of row [uid] are positive; the shared
    objects are unchanged. *)
Theorem registered_key_checks
    (cfg : config) (pubkey : string) (uid : nat) (s : state) :
  hotkeys metagraph !! uid = Some pubkey ->
  (forall j, (j < uid)%nat -> hotkeys metagraph !! j <> Some pubkey) ->
  registration_check cfg pubkey s = (Py.Ok None, s)
  /\ (forall st, stake metagraph !! uid = Some st ->
        ((st < blacklist_stake cfg)%Q ->
         stake_check cfg pubkey s
           = (Py.Raise (Py.Exn Py.Exception "Stake blacklist"), s))
        /\ ((blacklist_stake cfg <= st)%Q ->
            stake_check cfg pubkey s = (Py.Ok false, s)))
  /\ (forall row, weights metagraph !! uid = Some row ->
        let positive := Z.of_nat (length (filter (fun w => Qlt_bool 0 w = true) row)) in
        (positive < min_allowed_weights ->
         validator_check pubkey s
           = (Py.Raise (Py.Exn Py.Exception "Validator blacklist"), s))
        /\ (min_allowed_weights <= positive ->
            validator_check pubkey s = (Py.Ok false, s))).
Proof.
  intros Hreg Hfirst.
  pose proof (list_index_first pubkey (hotkeys metagraph) uid s Hreg Hfirst) as Hidx.
  split; [ | split].
  - unfold registration_check. rewrite bool_decide_eq_true_2; [done | ].
    by eapply list_elem_of_lookup_2.
  - intros st Hst. unfold stake_check, Py.bind, Py.getitem.
    rewrite Hidx, Hst. cbn. split.
    + intros Hlt. apply Qlt_bool_iff in Hlt. by rewrite Hlt.
    + intros Hle. destruct (Qlt_bool st (blacklist_stake cfg)) eqn:Hb; [ | done].
      apply Qlt_bool_iff in Hb. by destruct (Qlt_not_le _ _ Hb).
  - intros row Hrow. cbn zeta. unfold validator_check, Py.bind, Py.getitem.
    rewrite Hidx, Hrow. cbn. split; intros Hcmp.
    + destruct (Z.geb_spec
        (Z.of_nat (length (filter (fun w => Qlt_bool 0 w = true) row)))
        min_allowed_weights); [lia | done].
    + destruct (Z.geb_spec
        (Z.of_nat (length (filter (fun w => Qlt_bool 0 w = true) row)))
        min_allowed_weights); [done | lia].
Qed.


(** X8: [time_check] touches the entry of its caller alone: the entries of
    the other callers and every other shared object are as before, and no
    caller seen before is forgotten. *)
Theorem time_check_frame
    (cfg : config) (pubkey : string) (current_time : Z) (s : state) :
  let s' := snd (time_check cfg pubkey current_time s) in
  (forall other, other <> pubkey -> timecheck s' !! other = timecheck s !! other)
  /\ dom (timecheck s) ⊆ dom (timecheck s')
  /\ set_timecheck (timecheck s) s' = s.
Proof.
  cbn zeta.
  assert (Hs' : snd (time_check cfg pubkey current_time s)
                = set_timecheck (<[pubkey := current_time]> (timecheck s)) s).
  { unfold time_check, Py.bind, Py.get, Py.modify, Py.ret, Py.raise.
    destruct (timecheck s !! pubkey); [ | done].
    by destruct (_ >=? _). }
  rewrite Hs'. split; [ | split].
  - intros other Hne. cbn. by rewrite lookup_insert_ne.
  - cbn. rewrite dom_insert_L. set_solver.
  - by destruct s.
Qed.

(** The outcome of a check that follows a check of the same caller. *)
Lemma time_check_after
    (cfg : config) (pubkey : string) (t1 t2 : Z) (s : state) :
  fst (time_check cfg pubkey t2 (snd (time_check cfg pubkey t1 s)))
  = if t2 - t1 >=? timedelta_seconds (blacklist_time cfg)
    then Py.Ok false
    else Py.Raise (Py.Exn Py.Exception "blacklist").
Proof.
  assert (Hs' : timecheck (snd (time_check cfg pubkey t1 s)) !! pubkey = Some t1).
  { unfold time_check, Py.bind, Py.get, Py.modify, Py.ret, Py.raise.
    destruct (timecheck s !! pubkey); [destruct (_ >=? _) | ]; cbn;
      apply lookup_insert_eq. }
  remember (snd (time_check cfg pubkey t1 s)) as s1 eqn:Hs1.
  unfold time_check, Py.bind, Py.get, Py.modify, Py.ret, Py.raise.
  rewrite Hs'. by destruct (_ >=? _).
Qed.

(** X9: a caller that comes back before the window has passed since its
    previous request, each time, is rejected each time, however long ago
    its first request was: the rejected requests restart the window. *)
Theorem flooding_caller_is_always_rejected
    (cfg : config) (pubkey : string) (t0 : Z) (times : list Z) (s : state) :
  within_window (timedelta_seconds (blacklist_time cfg)) t0 times ->
  Forall (fun r => r = Py.Raise (Py.Exn Py.Exception "blacklist"))
    (fst (time_check_all cfg pubkey times (snd (time_check cfg pubkey t0 s)))).
Proof.
  revert t0 s. induction times as [ | t rest IH]; intros t0 s Hgaps.
  - constructor.
  - destruct Hgaps as [Hgap Hrest].
    pose proof (time_check_after cfg pubkey t0 t s) as Hout.
    specialize (IH t (snd (time_check cfg pubkey t0 s)) Hrest).
    remember (snd (time_check cfg pubkey t0 s)) as s0 eqn:Hs0.
    cbn [time_check_all].
    destruct (time_check cfg pubkey t s0) as [r s1]. cbn [fst snd] in *.
    destruct (time_check_all cfg pubkey rest s1) as [rs s2]. cbn [fst] in *.
    constructor; [ | exact IH].
    rewrite Hout.
    destruct (Z.geb_spec (t - t0) (timedelta_seconds (blacklist_time cfg)));
      [lia | done].
Qed.

End AdmissionChecks.

Lemma unregistered_key_checks_witness :
  fst (@registration_check Samples.node (Samples.cfg true false 0) "mallory"
         (Samples.shared 0 ∅)) = Py.Ok (Some false)
  /\ exists m,
       @stake_check Samples.node (Samples.cfg true false 0) "mallory"
         (Samples.shared 0 ∅)
       = (Py.Raise (Py.Exn Py.ValueError m), Samples.shared 0 ∅).
Proof.
  destruct (@unregistered_key_checks Samples.node (Samples.cfg true false 0)
              "mallory" (Samples.shared 0 ∅)) as (Hreg & Hstake & _).
  - vm_compute. intros Hin.
    repeat (apply elem_of_cons in Hin as [Hin | Hin]; [discriminate | ]).
    by apply elem_of_nil in Hin.
  - split; [by rewrite Hreg | exact Hstake].
Defined.

Lemma registered_key_checks_witness :
  @stake_check Samples.node (Samples.cfg true false 0) "bob" (Samples.shared 0 ∅)
  = (Py.Raise (Py.Exn Py.Exception "Stake blacklist"), Samples.shared 0 ∅)
  /\ @validator_check Samples.node "alice" (Samples.shared 0 ∅)
     = (Py.Ok false, Samples.shared 0 ∅).
Proof.
  split.
  - destruct (@registered_key_checks Samples.node (Samples.cfg true false 0)
                "bob" 1%nat (Samples.shared 0 ∅)) as (_ & Hstake & _).
    + reflexivity.
    + intros j Hj. destruct j as [ | j]; [discriminate | lia].
    + apply (proj1 (Hstake 0%Q eq_refl)). reflexivity.
  - destruct (@registered_key_checks Samples.node (Samples.cfg true false 0)
                "alice" 0%nat (Samples.shared 0 ∅)) as (_ & _ & Hval).
    + reflexivity.
    + intros j Hj. lia.
    + apply (proj2 (Hval [0%Q; 1%Q] eq_refl)). vm_compute. discriminate.
Defined.

Lemma flooding_caller_is_always_rejected_witness :
  Forall (fun r => r = Py.Raise (Py.Exn Py.Exception "blacklist"))
    (fst (@time_check_all Samples.node (Samples.cfg true false 0) "carol"
            [1500000; 3000000; 4500000]
            (snd (@time_check Samples.node (Samples.cfg true false 0) "carol" 0
                    (Samples.shared 0 ∅))))).
Proof.
  apply (@flooding_caller_is_always_rejected Samples.node
           (Samples.cfg true false 0) "carol" 0
           [1500000; 3000000; 4500000] (Samples.shared 0 ∅)).
  vm_compute. repeat split.
Defined.


Section DispatcherAccounts.
Context `{Collaborators}.
Variables (inputs_x : list input_item) (grads_dy : list grad_item).

(** What a turn of the loop adds to the counter, read off the code it
    appends. *)
Lemma dispatch_item_account (index : nat) (syn : synapse) (f : frame responses) :
  let f1 := snd (dispatch_item inputs_x grads_dy index syn f) in
  let c := fst (entry_of syn (fst (dispatch_try inputs_x grads_dy index syn f))) in
  backward_gradients_count (globals f1)
  = backward_gradients_count (globals f)
    + match inputs_x !! index with
      | Some x => if decide (c = Success) then size0 x else 0
      | None => 0
      end.
Proof.
  cbn zeta.
  pose proof (dispatch_item_counter inputs_x grads_dy index syn f) as Hcount.
  cbn zeta in Hcount.
  pose proof (dispatch_try_spec inputs_x grads_dy index syn f) as Hspec.
  destruct (dispatch_try inputs_x grads_dy index syn f) as [[[] | e] f1] eqn:Htry;
    cbn in *.
  - destruct (has_callback syn); cbn.
    + destruct Hcount as (x & Hx & ->). rewrite Hx. by rewrite decide_True.
    + rewrite Hcount.
      destruct (inputs_x !! index); [rewrite decide_False by done | ]; lia.
  - rewrite Hcount.
    destruct (inputs_x !! index); [rewrite decide_False by done | ]; lia.
Qed.

Lemma dispatch_loop_account (synapses : list synapse) (index : nat)
    (f : frame responses) :
  let f' := snd (dispatch_loop inputs_x grads_dy index synapses f) in
  backward_gradients_count (globals f')
  = backward_gradients_count (globals f)
    + success_samples (drop index inputs_x)
        (drop (length (response_codes (locals f))) (response_codes (locals f'))).
Proof.
  revert index f. induction synapses as [ | syn rest IH]; intros index f; cbn zeta.
  - cbn [dispatch_loop Py.ret snd]. rewrite drop_all.
    destruct (drop index inputs_x); cbn; lia.
  - rewrite dispatch_loop_cons.
    pose proof (dispatch_item_account index syn f) as Hitem. cbn zeta in Hitem.
    destruct (dispatch_item_spec inputs_x grads_dy index syn f)
      as (f1 & Hrun & Hloc & _).
    rewrite Hrun in Hitem |- *. cbn [snd] in *.
    specialize (IH (S index) f1). cbn zeta in IH. rewrite IH, Hitem.
    destruct (dispatch_loop_spec inputs_x grads_dy rest (S index) f1)
      as (f' & cs & ms & Hrest & Hc & _).
    rewrite Hrest. cbn [snd].
    set (c := fst (entry_of syn (fst (dispatch_try inputs_x grads_dy index syn f))))
      in *.
    assert (Hc1 : response_codes (locals f1)
                  = (response_codes (locals f) ++ [c])%list) by by rewrite Hloc.
    assert (Hdrop1 : drop (length (response_codes (locals f1)))
                       (response_codes (locals f')) = cs).
    { rewrite Hc. apply drop_app_length. }
    assert (Hdrop : drop (length (response_codes (locals f)))
                      (response_codes (locals f')) = c :: cs).
    { rewrite Hc, Hc1, <- app_assoc. apply drop_app_length. }
    rewrite Hdrop1, Hdrop.
    destruct (inputs_x !! index) as [x | ] eqn:Hx.
    + rewrite (drop_S _ _ _ Hx). cbn [success_samples]. lia.
    + apply lookup_ge_None in Hx.
      rewrite !drop_ge by lia. cbn [success_samples]. lia.
Qed.

Lemma dispatch_steps_refl (s : state) : dispatch_steps s s.
Proof. exists []. rewrite app_nil_r. by repeat split. Qed.

Lemma dispatch_steps_trans (s1 s2 s3 : state) :
  dispatch_steps s1 s2 -> dispatch_steps s2 s3 -> dispatch_steps s1 s3.
Proof.
  intros (e1 & Ht1 & F1 & ? & ? & ? & ? & ? & ? & ?)
         (e2 & Ht2 & F2 & ? & ? & ? & ? & ? & ? & ?).
  exists (e1 ++ e2)%list. rewrite Ht2, Ht1, app_assoc.
  repeat split; try congruence. by apply Forall_app.
Qed.

Lemma dispatch_try_steps (index : nat) (syn : synapse) (f : frame responses) :
  dispatch_steps (globals f)
    (globals (snd (dispatch_try inputs_x grads_dy index syn f))).
Proof.
  unfold dispatch_try.
  destruct (synapse_callbacks !! synapse_type syn) as [[cb | ] | ];
    try apply dispatch_steps_refl.
  unfold Py.bind, Py.getitem, glob, run_world, record, Py.modify, Py.ret, Py.raise.
  destruct (inputs_x !! index) as [x | ] eqn:Hx; cbn; [ | apply dispatch_steps_refl].
  destruct (cb x syn (world (globals f))) as [[out | e] w] eqn:Hcb; cbn.
  2:{ exists [EvCallback (synapse_type syn) index].
      repeat split; auto. repeat constructor. }
  destruct (grads_dy !! index) as [g | ]; cbn.
  2:{ exists [EvCallback (synapse_type syn) index].
      repeat split; auto. repeat constructor. }
  destruct (autograd_backward _ _ _) as [[[] | e] w'] eqn:Hbw; cbn.
  all: exists [EvCallback (synapse_type syn) index; EvBackward index];
    rewrite <- app_assoc; repeat split; auto; repeat constructor.
Qed.

Lemma dispatch_loop_steps (synapses : list synapse) (index : nat)
    (f : frame responses) :
  dispatch_steps (globals f)
    (globals (snd (dispatch_loop inputs_x grads_dy index synapses f))).
Proof.
  revert index f. induction synapses as [ | syn rest IH]; intros index f.
  - apply dispatch_steps_refl.
  - rewrite dispatch_loop_cons.
    destruct (dispatch_item_spec inputs_x grads_dy index syn f)
      as (f1 & Hrun & _ & Hglob).
    rewrite Hrun. cbn [snd].
    eapply dispatch_steps_trans; [ | apply IH].
    rewrite Hglob. apply dispatch_try_steps.
Qed.

(** X10: with remote training on, the counter after a call of the
    dispatcher is the counter before plus the sample counts of the items
    answered [Success]; items answered otherwise add nothing. *)
Theorem backward_callback_counts_success
    (cfg : config) (synapses : list synapse) (s : state) :
  remote_train cfg = true ->
  let r := backward_callback cfg inputs_x grads_dy synapses s in
  exists tensors codes messages,
    fst r = Py.Ok (tensors, codes, messages)
    /\ backward_gradients_count (snd r)
       = backward_gradients_count s + success_samples inputs_x codes.
Proof.
  intros Hremote. cbn zeta.
  rewrite (backward_callback_run inputs_x grads_dy cfg synapses s Hremote).
  do 3 eexists. split; [reflexivity | ]. cbn [snd].
  pose proof (dispatch_loop_account synapses 0 (entered s)) as Hacc.
  cbn zeta in Hacc.
  destruct (enter_with_item s) as (_ & Hloc & _).
  rewrite Hloc in Hacc. cbn [response_codes length] in Hacc.
  rewrite !drop_0 in Hacc.
  assert (He : backward_gradients_count (globals (entered s))
               = backward_gradients_count s) by reflexivity.
  rewrite He in Hacc. rewrite <- Hacc. reflexivity.
Qed.

(** X11: with remote training on, a call of the dispatcher enters the
    anomaly-detection context, makes callbacks and backward passes only,
    and leaves the context before it returns, whatever the items do; the
    optimizer's learning rate, the best loss, the attribute
    [backward_gradients], the lock and the [timecheck] dictionary are as
    before. *)
Theorem backward_callback_calls
    (cfg : config) (synapses : list synapse) (s : state) :
  remote_train cfg = true ->
  let s' := snd (backward_callback cfg inputs_x grads_dy synapses s) in
  exists evs,
    trace s' = (trace s ++ [EvEnter (DetectAnomaly true)] ++ evs
                ++ [EvExit (DetectAnomaly true)])%list
    /\ Forall dispatch_event evs
    /\ lr s' = lr s
    /\ best_loss s' = best_loss s
    /\ backward_gradients s' = backward_gradients s
    /\ mutex_locked s' = mutex_locked s
    /\ timecheck s' = timecheck s.
Proof.
  intros Hremote. cbn zeta.
  rewrite (backward_callback_run inputs_x grads_dy cfg synapses s Hremote).
  cbn [snd].
  destruct (dispatch_loop_steps synapses 0 (entered s))
    as (evs & Htrace & Hevs & _ & _ & Hbg & Hbest & Hlr & Hmutex & Htime).
  set (after := snd (dispatch_loop inputs_x grads_dy 0 synapses (entered s))) in *.
  exists evs.
  change (trace (globals (snd (glob (exit_ with_item) after))))
    with (trace (globals after) ++ [EvExit (DetectAnomaly true)])%list.
  change (lr (globals (snd (glob (exit_ with_item) after))))
    with (lr (globals after)).
  change (best_loss (globals (snd (glob (exit_ with_item) after))))
    with (best_loss (globals after)).
  change (backward_gradients (globals (snd (glob (exit_ with_item) after))))
    with (backward_gradients (globals after)).
  change (mutex_locked (globals (snd (glob (exit_ with_item) after))))
    with (mutex_locked (globals after)).
  change (timecheck (globals (snd (glob (exit_ with_item) after))))
    with (timecheck (globals after)).
  rewrite Htrace, Hbg, Hbest, Hlr, Hmutex, Htime.
  change (trace (globals (entered s)))
    with (trace s ++ [EvEnter (DetectAnomaly true)])%list.
  rewrite <- !app_assoc. by repeat split.
Qed.


(** X12: in the lists a call returns, an entry [Success] carries the
    message ['Success'] and an entry [NotImplemented] the message
    ['Not Implemented']. *)
Theorem backward_callback_messages
    (cfg : config) (synapses : list synapse) (s : state) (i : nat) :
  remote_train cfg = true ->
  let r := backward_callback cfg inputs_x grads_dy synapses s in
  exists tensors codes messages,
    fst r = Py.Ok (tensors, codes, messages)
    /\ (codes !! i = Some Success -> messages !! i = Some "Success")
    /\ (codes !! i = Some NotImplemented -> messages !! i = Some "Not Implemented").
Proof.
  intros Hremote. cbn zeta.
  rewrite (backward_callback_run inputs_x grads_dy cfg synapses s Hremote).
  do 3 eexists. split; [reflexivity | ].
  destruct (dispatch_loop_spec inputs_x grads_dy synapses 0 (entered s))
    as (f' & cs & ms & Hrun & Hc & _ & _ & Hlc & _).
  destruct (enter_with_item s) as (_ & Hloc & _).
  rewrite Hloc in Hc. cbn in Hc.
  assert (Hentry : forall c, response_codes (locals f') !! i = Some c ->
            exists syn r, c = fst (entry_of syn r)
              /\ response_messages (locals f') !! i = Some (snd (entry_of syn r))).
  { intros c Hci.
    assert (Hlt : (i < length synapses)%nat).
    { apply lookup_lt_Some in Hci. rewrite Hc in Hci. lia. }
    destruct (lookup_lt_is_Some_2 synapses i Hlt) as [syn Hsyn].
    pose proof (dispatch_loop_lookup inputs_x grads_dy synapses i syn (entered s) Hsyn)
      as Hlook.
    cbn zeta in Hlook. rewrite Hrun, Hloc in Hlook. cbn in Hlook.
    destruct Hlook as [Hcode Hmsg]. rewrite Hcode in Hci. injection Hci as <-.
    by do 2 eexists. }
  rewrite Hrun. cbn [snd]. split; intros Hci;
    destruct (Hentry _ Hci) as (syn & r & Hc' & ->);
    destruct r as [[] | e]; cbn in *; try discriminate;
    destruct (has_callback syn); cbn in *; done.
Qed.

(** X13: with remote training off the dispatcher returns three empty
    lists for every batch, calls no callback, and leaves the counter and
    every other shared object as they were. *)
Theorem backward_callback_remote_off
    (cfg : config) (synapses : list synapse) (s : state) :
  remote_train cfg = false ->
  backward_callback cfg inputs_x grads_dy synapses s = (Py.Ok ([], [], []), s).
Proof.
  intros Hremote. unfold backward_callback, call. by rewrite Hremote.
Qed.

End DispatcherAccounts.


Lemma backward_callback_counts_success_witness :
  backward_gradients_count
    (snd (@backward_callback Samples.node (Samples.cfg true false 0)
            Samples.batch_inputs Samples.batch_grads Samples.batch_synapses
            (Samples.shared 5 ∅))) = 7.
Proof.
  destruct (@backward_callback_counts_success Samples.node
              Samples.batch_inputs Samples.batch_grads
              (Samples.cfg true false 0) Samples.batch_synapses
              (Samples.shared 5 ∅) eq_refl)
    as (tensors & codes & messages & Hrun & Hcount).
  rewrite Hcount. vm_compute in Hrun. injection Hrun as <- <- <-.
  vm_compute. reflexivity.
Defined.

Lemma backward_callback_calls_witness :
  exists evs,
    trace (snd (@backward_callback Samples.node (Samples.cfg true false 0)
                  Samples.batch_inputs Samples.batch_grads Samples.batch_synapses
                  (Samples.shared 5 ∅)))
    = ([EvEnter (DetectAnomaly true)] ++ evs ++ [EvExit (DetectAnomaly true)])%list
    /\ Forall dispatch_event evs.
Proof.
  destruct (@backward_callback_calls Samples.node
              Samples.batch_inputs Samples.batch_grads
              (Samples.cfg true false 0) Samples.batch_synapses
              (Samples.shared 5 ∅) eq_refl)
    as (evs & Htrace & Hevs & _).
  exists evs. split; [exact Htrace | exact Hevs].
Defined.

Lemma backward_callback_messages_witness :
  exists tensors codes messages,
    fst (@backward_callback Samples.node (Samples.cfg true false 0)
           Samples.batch_inputs Samples.batch_grads Samples.batch_synapses
           (Samples.shared 5 ∅)) = Py.Ok (tensors, codes, messages)
    /\ messages !! 0%nat = Some "Success".
Proof.
  destruct (@backward_callback_messages Samples.node
              Samples.batch_inputs Samples.batch_grads
              (Samples.cfg true false 0) Samples.batch_synapses
              (Samples.shared 5 ∅) 0%nat eq_refl)
    as (tensors & codes & messages & Hrun & Hok & _).
  exists tensors, codes, messages. split; [exact Hrun | ].
  apply Hok. vm_compute in Hrun. by injection Hrun as <- <- <-.
Defined.

Lemma backward_callback_remote_off_witness :
  @backward_callback Samples.node (Samples.cfg false false 0)
    Samples.batch_inputs Samples.batch_grads Samples.batch_synapses
    (Samples.shared 5 ∅) = (Py.Ok ([], [], []), Samples.shared 5 ∅).
Proof.
  apply (@backward_callback_remote_off Samples.node).
  reflexivity.
Defined.


Section Update.
Context `{Collaborators}.

(** X14: the update never raises [best_loss]: whatever the turn did, the
    best loss after lines 312-329 is at most the best loss before, and a
    checkpoint is written exactly when it has become strictly lower. *)
Theorem maybe_update_checkpoint (cfg : config) (f : frame serve_locals) :
  let s' := globals (snd (maybe_update cfg f)) in
  (best_loss s' <= best_loss (globals f))%Q
  /\ exists evs,
       trace s' = (trace (globals f) ++ evs)%list
       /\ (In EvModelSave evs <-> (best_loss s' < best_loss (globals f))%Q).
Proof.
  cbn zeta.
  unfold maybe_update, Py.bind, Py.get, glob, read_losses, loc_get, loc_modify,
    emit, Py.modify, Py.ret, Py.raise. cbn.
  assert (Hirr : forall q : Q, ~ (q < q)%Q) by (intros q; apply Qlt_irrefl).
  assert (Hnone : forall (q : Q) (evs : list event),
            ~ In EvModelSave evs -> In EvModelSave evs <-> (q < q)%Q).
  { intros q evs Hno. split; [done | ]. intros Hq. by destruct (Hirr q). }
  destruct (update_due cfg f).
  2:{ split; [apply Qle_refl | ]. exists []. rewrite app_nil_r.
      split; [done | ]. apply Hnone. intros []. }
  destruct (backward_gradients_count (globals f) >? 0); cbn;
    (destruct (losses (locals f)) as [total | ]; cbn;
     [ destruct (iteration (locals f) =? 0)%Z; cbn;
       [ | destruct (Qlt_bool _ (best_loss (globals f))) eqn:Hlt; cbn ] | ]);
    try (split; [apply Qle_refl | ];
         eexists; split; [rewrite <- !app_assoc; reflexivity | ];
         apply Hnone; cbn; intros [ | [ | [ | []]]]; discriminate).
  all: apply Qlt_bool_iff in Hlt; split; [by apply Qlt_le_weak | ];
    eexists; split; [rewrite <- !app_assoc; reflexivity | ];
    split; [done | intros _; cbn; auto].
Qed.



(** X16: without a local iteration in the turn or with local training
    off, and without pending remote samples or with remote training off,
    lines 312-329 do nothing: no optimizer step, no checkpoint, and every
    variable and shared object as before. *)
Theorem maybe_update_idle (cfg : config) (f : frame serve_locals) :
  local_train cfg = false \/ iteration (locals f) <= 0 ->
  remote_train cfg = false \/ backward_gradients_count (globals f) <= 0 ->
  maybe_update cfg f = (Py.Ok tt, f).
Proof.
  intros Hlocal Hremote.
  assert (Hdue : update_due cfg f = false).
  { unfold update_due. apply orb_false_intro; apply andb_false_iff.
    - destruct Hlocal as [Hl | Hl]; [by left | right; lia].
    - destruct Hremote as [Hr | Hr]; [by left | right; lia]. }
  unfold maybe_update, Py.bind, Py.get, glob. cbn. rewrite Hdue.
  by destruct f.
Qed.

(** X17: the weight commit of lines 351-373 never raises, whatever
    [set_weights] does; when more than [blocks_per_set_weights] blocks
    have passed since [last_set_block] it sets [last_set_block] to the
    current block, also when the submission raises or returns [False] or
    when [uid] is out of range; otherwise it changes nothing. *)
Theorem maybe_commit_weights_attempt (cfg : config) (f : frame serve_locals) :
  exists f',
    maybe_commit_weights cfg f = (Py.Ok tt, f')
    /\ (if current_block (locals f) - last_set_block (locals f)
           >? blocks_per_set_weights cfg
        then locals f' = set_last_set_block (current_block (locals f)) (locals f)
        else f' = f).
Proof.
  unfold maybe_commit_weights, Py.bind, Py.try_except, loc_get, loc_modify, glob,
    run_world, record, emit, Py.modify, Py.ret, Py.raise. cbn.
  destruct (_ >? _); [ | exists f; split; [reflexivity | by destruct f]].
  destruct (bool_decide (uid (locals f) < subtensor_n)%nat); cbn.
  - destruct (set_weights (world (globals f))) as [[did_set | e] w]; cbn;
      eexists; split; reflexivity.
  - eexists; split; reflexivity.
Qed.

End Update.



Section TrainingTurn.
Context `{Collaborators}.

Lemma fold_right_Qplus_acc (a : Q) (l : list Q) :
  (fold_right Qplus a l == fold_right Qplus 0 l + a)%Q.
Proof.
  induction l as [ | x l IH]; cbn.
  - ring.
  - rewrite IH. ring.
Qed.

Lemma loss_total_S (b0 n : nat) :
  (loss_total b0 (S n) == loss_total b0 n + loss_of (b0 + n))%Q.
Proof.
  unfold loss_total. rewrite seq_S, map_app, fold_right_app. cbn.
  rewrite fold_right_Qplus_acc. ring.
Qed.

Lemma train_step_keeps_sum (e c0 : Z) (b0 : nat) (f : frame serve_locals) :
  training_inv e c0 b0 f /\ losses_inv b0 f -> in_epoch f = true ->
  exists f', train_step f = (Py.Ok tt, f')
             /\ (training_inv e c0 b0 f' /\ losses_inv b0 f').
Proof.
  intros [Hinv Hsum] Hin.
  destruct (train_step_keeps e c0 b0 f Hinv Hin) as (f' & Hstep & Hinv').
  exists f'. split; [done | ]. split; [done | ].
  destruct Hinv as (He & Hit & Hlo & Hb & Hc).
  revert Hstep.
  unfold train_step, Py.bind, loc_get, glob, get_current_block, model_on_next_batch,
    read_losses, loc_modify, emit, Py.get, Py.modify, Py.ret, Py.raise. cbn.
  destruct (current_block (locals f) =? clock (ticks (globals f)))%Z; cbn.
  - by intros [= <-].
  - destruct (Z.gtb_spec (iteration (locals f)) 0) as [Hpos | Hzero]; cbn.
    + destruct (Hsum Hpos) as (q & Hq & Hqsum). rewrite Hq. cbn.
      intros [= <-]. intros _. cbn. eexists. split; [reflexivity | ].
      replace (Z.to_nat (iteration (locals f) + 1))
        with (S (Z.to_nat (iteration (locals f)))) by lia.
      rewrite loss_total_S, Hqsum, Hb. reflexivity.
    + intros [= <-]. intros _. cbn. eexists. split; [reflexivity | ].
      assert (Hz : iteration (locals f) = 0) by lia.
      rewrite Hb, Hz. change (Z.to_nat (0 + 1)) with 1%nat.
      change (Z.to_nat 0) with 0%nat. rewrite Nat.add_0_r.
      unfold loss_total. cbn [seq map fold_right]. ring.
Qed.

Lemma train_step_lowers_sum (n : nat) (e c0 : Z) (b0 : nat)
    (f f' : frame serve_locals) :
  (forall m, (n <= m)%nat -> e < clock m) ->
  training_inv e c0 b0 f /\ losses_inv b0 f -> in_epoch f = true ->
  train_step f = (Py.Ok tt, f') ->
  (turns_left n f' < turns_left n f)%nat.
Proof. intros Hpast [Hinv _]. by apply (train_step_lowers n e c0 b0). Qed.


(** What a turn of a locally training node has established when it
    reaches line 312. *)
Lemma reach_update_training
    (cfg : config) (f : frame serve_locals) (fuel : nat) (r : Py.result unit)
    (f2 : frame serve_locals) :
  local_train cfg = true ->
  hotkey ∈ hotkeys metagraph ->
  reach_update cfg fuel f = Some (r, f2) ->
  r = Py.Ok tt
  /\ training_inv (clock (ticks (globals f)) + blocks_per_epoch cfg)
       (clock (ticks (globals f))) (batches (globals f)) f2
  /\ losses_inv (batches (globals f)) f2
  /\ in_epoch f2 = false.
Proof.
  intros Hlocal Hreg.
  destruct (epoch_start_spec cfg f Hreg) as (f1 & Hstart & Hit & Hcur & Hend & Hb).
  unfold reach_update. rewrite Hstart. unfold train_or_wait. rewrite Hlocal.
  set (c0 := clock (ticks (globals f))) in *.
  set (e := c0 + blocks_per_epoch cfg) in *.
  assert (Hinv : training_inv e c0 (batches (globals f)) f1
                 /\ losses_inv (batches (globals f)) f1).
  { split.
    - unfold training_inv. rewrite Hit, Hend, Hcur, Hb. cbn.
      repeat split; try done; lia.
    - intros Hpos. rewrite Hit in Hpos. lia. }
  intros Hrun.
  destruct (while_ fuel in_epoch train_step f1) as [[r' f'] | ] eqn:Hloop; [ | done].
  destruct (while_inv _ _ _ (train_step_keeps_sum e c0 _) fuel f1 r' f' Hinv Hloop)
    as (-> & [Hinv' Hsum'] & Hout).
  destruct (backward_local_loss_spec e c0 _ f' Hinv') as (f2' & Hback & Hloc & Hb').
  rewrite Hback in Hrun. injection Hrun as <- <-.
  split; [done | ].
  unfold training_inv, losses_inv, in_epoch in *. rewrite Hloc, Hb'. auto.
Qed.

Lemma reach_update_training_ends (cfg : config) (f : frame serve_locals) :
  local_train cfg = true ->
  hotkey ∈ hotkeys metagraph ->
  (exists n, forall m, (n <= m)%nat ->
     clock (ticks (globals f)) + blocks_per_epoch cfg < clock m) ->
  exists fuel f2, reach_update cfg fuel f = Some (Py.Ok tt, f2).
Proof.
  intros Hlocal Hreg [n Hpast].
  destruct (epoch_start_spec cfg f Hreg) as (f1 & Hstart & Hit & Hcur & Hend & Hb).
  unfold reach_update. rewrite Hstart. unfold train_or_wait. rewrite Hlocal.
  set (c0 := clock (ticks (globals f))) in *.
  set (e := c0 + blocks_per_epoch cfg) in *.
  assert (Hinv : training_inv e c0 (batches (globals f)) f1
                 /\ losses_inv (batches (globals f)) f1).
  { split.
    - unfold training_inv. rewrite Hit, Hend, Hcur, Hb. cbn.
      repeat split; try done; lia.
    - intros Hpos. rewrite Hit in Hpos. lia. }
  destruct (while_total _ in_epoch train_step (train_step_keeps_sum e c0 _)
              (turns_left n)
              (fun s s' => train_step_lowers_sum n e c0 _ s s' Hpast) f1 Hinv)
    as (fuel & f' & Hrun).
  destruct (while_inv _ _ _ (train_step_keeps_sum e c0 _) fuel f1 _ f' Hinv Hrun)
    as (_ & [Hinv' _] & _).
  destruct (backward_local_loss_spec e c0 _ f' Hinv') as (f2 & Hback & _).
  exists fuel, f2. by rewrite Hrun, Hback.
Qed.

(** X18: a turn of a node that trains locally and whose hotkey the
    metagraph lists, with [blocks_per_epoch] not negative, on a chain
    whose readings end up past the end block:
    the update is reached without an exception, after at least one
    iteration, each iteration having drawn one batch, and with the current
    block past the end block, which is the start block plus
    [blocks_per_epoch]. *)
Theorem training_turn (cfg : config) (f : frame serve_locals) :
  local_train cfg = true ->
  0 <= blocks_per_epoch cfg ->
  hotkey ∈ hotkeys metagraph ->
  (exists n, forall m, (n <= m)%nat ->
     clock (ticks (globals f)) + blocks_per_epoch cfg < clock m) ->
  (exists fuel f2, reach_update cfg fuel f = Some (Py.Ok tt, f2))
  /\ (forall fuel r f2,
        reach_update cfg fuel f = Some (r, f2) ->
        r = Py.Ok tt
        /\ 1 <= iteration (locals f2)
        /\ batches (globals f2)
           = (batches (globals f) + Z.to_nat (iteration (locals f2)))%nat
        /\ end_block (locals f2)
           = clock (ticks (globals f)) + blocks_per_epoch cfg
        /\ end_block (locals f2) < current_block (locals f2)).
Proof.
  intros Hlocal Hbpe Hreg Hpast. split.
  - by apply reach_update_training_ends.
  - intros fuel r f2 Hrun.
    destruct (reach_update_training cfg f fuel r f2 Hlocal Hreg Hrun)
      as (-> & (He & Hit & _ & Hb & Hc) & _ & Hout).
    unfold in_epoch in Hout. rewrite He in Hout.
    split; [done | ].
    assert (Hone : 1 <= iteration (locals f2)).
    { destruct (Z.eq_dec (iteration (locals f2)) 0) as [Hz | Hnz]; [ | lia].
      rewrite (Hc Hz) in Hout. lia. }
    repeat split; try done. rewrite He. lia.
Qed.

(** X19: when a turn of a locally training node whose hotkey the
    metagraph lists, with [blocks_per_epoch] not negative, reaches the
    update, [losses] holds the sum of the losses of the batches drawn in
    this turn, whatever it held from earlier turns. (With a negative
    [blocks_per_epoch] the loop of line 291 is not entered and [losses]
    keeps what an earlier turn left.) *)
Theorem training_turn_losses
    (cfg : config) (f : frame serve_locals) (fuel : nat) (r : Py.result unit)
    (f2 : frame serve_locals) :
  local_train cfg = true ->
  0 <= blocks_per_epoch cfg ->
  hotkey ∈ hotkeys metagraph ->
  reach_update cfg fuel f = Some (r, f2) ->
  exists q,
    losses (locals f2) = Some q
    /\ (q == loss_total (batches (globals f))
              (Z.to_nat (iteration (locals f2))))%Q.
Proof.
  intros Hlocal Hbpe Hreg Hrun.
  destruct (reach_update_training cfg f fuel r f2 Hlocal Hreg Hrun)
    as (_ & (He & Hit & _ & Hb & Hc) & Hsum & Hout).
  apply Hsum.
  unfold in_epoch in Hout. rewrite He in Hout.
  destruct (Z.eq_dec (iteration (locals f2)) 0) as [Hz | Hnz]; [ | lia].
  rewrite (Hc Hz) in Hout. lia.
Qed.


(** From line 311 on, after a turn with local iterations: the optimizer
    step is taken and nothing raises, whatever the weight commit meets. *)
Lemma finish_epoch_after_training
    (cfg : config) (f : frame serve_locals) (total : Q) :
  local_train cfg = true ->
  0 < iteration (locals f) ->
  losses (locals f) = Some total ->
  exists f',
    finish_epoch cfg f = (Py.Ok tt, f')
    /\ (exists q, In (EvOptimizerStep q) (trace (globals f')))
    /\ backward_gradients (globals f') = Some 0
    /\ local_data (locals f')
       = Some (total / inject_Z (iteration (locals f)))%Q.
Proof.
  intros Hlocal Hit Hlosses.
  assert (Hdue : update_due cfg f = true).
  { unfold update_due. rewrite Hlocal.
    replace (iteration (locals f) >? 0) with true by lia. reflexivity. }
  assert (Hnz : (iteration (locals f) =? 0)%Z = false) by lia.
  unfold finish_epoch, maybe_update, report, maybe_commit_weights, Py.bind,
    Py.try_except, Py.get, glob, read_losses, loc_get, loc_modify, run_world,
    record, emit, Py.modify, Py.ret, Py.raise. cbn.
  rewrite Hdue.
  destruct (backward_gradients_count (globals f) >? 0); cbn;
    rewrite Hlosses; cbn; rewrite Hnz; cbn;
    destruct (Qlt_bool _ (best_loss (globals f))); cbn;
    destruct (negb (wandb_api_key cfg =? "default")%string); cbn;
    (destruct (_ >? _); cbn;
     [ destruct (bool_decide (uid (locals f) < subtensor_n)%nat); cbn;
       [ destruct (set_weights _) as [[did_set | e] w]; cbn | ] | ]);
    (eexists; split; [reflexivity | ]; cbn;
     split; [eexists; rewrite ?in_app_iff; cbn; eauto 12 | done]).
Qed.


End TrainingTurn.


Section IdleTurn.
Context `{Collaborators}.

Lemma untrained_refl (s : state) : untrained s s.
Proof. exists []. rewrite app_nil_r. by repeat split. Qed.

Lemma untrained_trans (s1 s2 s3 : state) :
  untrained s1 s2 -> untrained s2 s3 -> untrained s1 s3.
Proof.
  intros (e1 & Ht1 & F1 & ? & ? & ? & ? & ?) (e2 & Ht2 & F2 & ? & ? & ? & ? & ?).
  exists (e1 ++ e2)%list. rewrite Ht2, Ht1, app_assoc.
  repeat split; try congruence. by apply Forall_app.
Qed.

Lemma wait_step_keeps_untrained (s0 : state) (e : Z) (f : frame serve_locals) :
  (waiting_inv e 0 (batches s0) f /\ untrained s0 (globals f)
   /\ local_data (locals f) = None) ->
  in_epoch f = true ->
  exists f', wait_step f = (Py.Ok tt, f')
    /\ (waiting_inv e 0 (batches s0) f' /\ untrained s0 (globals f')
        /\ local_data (locals f') = None).
Proof.
  intros (Hw & Hu & Hd) Hin.
  destruct (wait_step_keeps e 0 _ f Hw Hin) as (f' & Hstep & Hw').
  exists f'. split; [done | ]. split; [done | ].
  injection Hstep as <-. split; [ | done].
  eapply untrained_trans; [exact Hu | ].
  exists [EvSleep 12]. cbn. repeat split. repeat constructor. intros [].
Qed.

Lemma wait_step_lowers_untrained (n : nat) (s0 : state) (e : Z)
    (f f' : frame serve_locals) :
  (forall m, (n <= m)%nat -> e < clock m) ->
  (waiting_inv e 0 (batches s0) f /\ untrained s0 (globals f)
   /\ local_data (locals f) = None) ->
  in_epoch f = true ->
  wait_step f = (Py.Ok tt, f') ->
  (turns_left n f' < turns_left n f)%nat.
Proof. intros Hpast (Hw & _). by apply (wait_step_lowers n e 0 (batches s0)). Qed.

(** From line 311 on, when no update is due: nothing raises and nothing
    is trained. *)
Lemma finish_epoch_idle (cfg : config) (f : frame serve_locals) :
  update_due cfg f = false ->
  exists f',
    finish_epoch cfg f = (Py.Ok tt, f')
    /\ untrained (globals f) (globals f')
    /\ iteration (locals f') = iteration (locals f)
    /\ local_data (locals f') = local_data (locals f)
    /\ current_block (locals f') = current_block (locals f)
    /\ end_block (locals f') = end_block (locals f).
Proof.
  intros Hdue.
  unfold finish_epoch, maybe_update, report, maybe_commit_weights, Py.bind,
    Py.try_except, Py.get, glob, read_losses, loc_get, loc_modify, run_world,
    record, emit, Py.modify, Py.ret, Py.raise. cbn.
  rewrite Hdue. cbn.
  destruct (negb (wandb_api_key cfg =? "default")%string); cbn;
    (destruct (_ >? _); cbn;
     [ destruct (bool_decide (uid (locals f) < subtensor_n)%nat); cbn;
       [ destruct (set_weights _) as [[did_set | e] w]; cbn | ] | ]);
    (eexists; split; [reflexivity | ]; cbn;
     split; [ | done];
     eexists; split; [rewrite <- ?app_assoc; try reflexivity;
                      symmetry; apply app_nil_r | ];
     repeat split; repeat constructor; intros []).
Qed.


(** X21: a whole turn on a node with local training off and remote
    training off, whose hotkey the metagraph lists, on a chain that ends
    up past the end block: the turn ends without raising once the current
    block is past the end block, with no iteration and no ['local/loss'];
    no batch is drawn, no backward pass or optimizer step is made, no
    checkpoint is written, and the counter, the best loss and the learning
    rate are as before, whatever the counter holds. *)
Theorem idle_epoch (cfg : config) (f : frame serve_locals) :
  local_train cfg = false ->
  remote_train cfg = false ->
  hotkey ∈ hotkeys metagraph ->
  (exists n, forall m, (n <= m)%nat ->
     clock (ticks (globals f)) + blocks_per_epoch cfg < clock m) ->
  (exists fuel f', epoch cfg fuel f = Some (Py.Ok tt, f'))
  /\ (forall fuel r f',
        epoch cfg fuel f = Some (r, f') ->
        r = Py.Ok tt
        /\ untrained (globals f) (globals f')
        /\ iteration (locals f') = 0
        /\ local_data (locals f') = None
        /\ end_block (locals f') < current_block (locals f')).
Proof.
  intros Hlocal Hremote Hreg [n Hpast].
  set (e := clock (ticks (globals f)) + blocks_per_epoch cfg) in *.
  set (I := fun f1 : frame serve_locals =>
              waiting_inv e 0 (batches (globals f)) f1
              /\ untrained (globals f) (globals f1)
              /\ local_data (locals f1) = None).
  assert (Hstart : exists f1, epoch_start cfg f = (Py.Ok tt, f1) /\ I f1).
  { destruct (epoch_start_spec cfg f Hreg) as (f1 & Hstart & Hit & Hcur & Hend & Hb).
    exists f1. split; [done | ]. split; [by repeat split | ].
    revert Hstart.
    unfold epoch_start, list_index, Py.bind, loc_modify, glob, get_current_block,
      record, Py.modify, Py.ret, Py.raise. cbn.
    destruct (list_find _ _) as [[u y] | ]; cbn; [ | done].
    intros [= <-]. split; [ | done].
    exists [EvNeuronForPubkey]. cbn. repeat split.
    repeat constructor. intros []. }
  destruct Hstart as (f1 & Hstart & HI).
  assert (Hfinish : forall f2, I f2 -> in_epoch f2 = false ->
    exists f', finish_epoch cfg f2 = (Py.Ok tt, f')
      /\ untrained (globals f) (globals f')
      /\ iteration (locals f') = 0
      /\ local_data (locals f') = None
      /\ end_block (locals f') < current_block (locals f')).
  { intros f2 ((He & Hit & Hb) & Hu & Hd) Hout.
    assert (Hdue : update_due cfg f2 = false).
    { unfold update_due. by rewrite Hlocal, Hremote. }
    destruct (finish_epoch_idle cfg f2 Hdue)
      as (f' & Hfin & Hu' & Hit' & Hd' & Hcur' & Hend').
    exists f'. split; [done | ].
    split; [by eapply untrained_trans | ].
    rewrite Hit', Hd', Hcur', Hend'. repeat split; try done.
    unfold in_epoch in Hout. lia. }
  split.
  - destruct (while_total I in_epoch wait_step
                (wait_step_keeps_untrained (globals f) e) (turns_left n)
                (fun s s' => wait_step_lowers_untrained n (globals f) e s s' Hpast)
                f1 HI) as (fuel & f2 & Hrun).
    destruct (while_inv I _ _ (wait_step_keeps_untrained (globals f) e)
                fuel f1 _ f2 HI Hrun) as (_ & HI2 & Hout).
    destruct (Hfinish f2 HI2 Hout) as (f' & Hfin & _).
    exists fuel, f'. unfold epoch, reach_update, train_or_wait.
    by rewrite Hstart, Hlocal, Hrun, Hfin.
  - intros fuel r f' Hep. revert Hep.
    unfold epoch, reach_update, train_or_wait. rewrite Hstart, Hlocal.
    destruct (while_ fuel in_epoch wait_step f1) as [[r2 f2] | ] eqn:Hrun; [ | done].
    destruct (while_inv I _ _ (wait_step_keeps_untrained (globals f) e)
                fuel f1 r2 f2 HI Hrun) as (-> & HI2 & Hout).
    destruct (Hfinish f2 HI2 Hout) as (f'' & Hfin & Hprops).
    rewrite Hfin. by intros [= <- <-].
Qed.

(** X22: when the node's own hotkey is not among the hotkeys of the
    metagraph, every turn ends at line 286 on the [ValueError] of
    [hotkeys.index]: the neuron lookup of line 285 is the one call made,
    the block height is not read, and apart from the record of that call
    the shared objects are as before. *)
Theorem unregistered_hotkey_epoch
    (cfg : config) (fuel : nat) (f : frame serve_locals) :
  hotkey ∉ hotkeys metagraph ->
  exists m f',
    epoch cfg fuel f = Some (Py.Raise (Py.Exn Py.ValueError m), f')
    /\ globals f'
       = set_trace (trace (globals f) ++ [EvNeuronForPubkey]) (globals f)
    /\ ticks (globals f') = ticks (globals f).
Proof.
  intros Hno.
  unfold epoch, reach_update, epoch_start, Py.bind, loc_modify, glob, record,
    Py.modify. cbn.
  destruct (list_index_missing hotkey (hotkeys metagraph)
              {| globals := set_trace (trace (globals f) ++ [EvNeuronForPubkey])
                              (globals f);
                 locals := set_local_data None (set_iteration 0 (locals f)) |} Hno)
    as [m Hm].
  rewrite Hm. exists m. eexists. split; [reflexivity | ]. split; reflexivity.
Qed.

End IdleTurn.



Lemma maybe_update_idle_witness :
  @maybe_update Samples.node (Samples.cfg false false 1)
    (Samples.updating 4 0 None) = (Py.Ok tt, Samples.updating 4 0 None).
Proof.
  apply (@maybe_update_idle Samples.node).
  - left. reflexivity.
  - left. reflexivity.
Defined.

Lemma training_turn_witness :
  exists fuel f2,
    @reach_update Samples.node (Samples.cfg true true 2) fuel (Samples.entering 0)
    = Some (Py.Ok tt, f2).
Proof.
  apply (@training_turn Samples.node (Samples.cfg true true 2) (Samples.entering 0)).
  - reflexivity.
  - cbn. lia.
  - vm_compute. apply list_elem_of_here.
  - exists 3%nat. intros m Hm. cbn. lia.
Defined.

Lemma training_turn_losses_witness :
  exists q,
    option_map (fun rf => losses (locals (snd rf)))
      (@reach_update Samples.node (Samples.cfg true true 2) 9 (Samples.entering 0))
    = Some (Some q)
    /\ (q == 4)%Q.
Proof.
  destruct (@reach_update Samples.node (Samples.cfg true true 2) 9
              (Samples.entering 0)) as [[r f2] | ] eqn:Hrun.
  - destruct (@training_turn_losses Samples.node (Samples.cfg true true 2)
                (Samples.entering 0) 9%nat r f2) as (q & Hq & Hsum).
    + reflexivity.
    + cbn. lia.
    + vm_compute. apply list_elem_of_here.
    + exact Hrun.
    + exists q. cbn. rewrite Hq. split; [reflexivity | ].
      rewrite Hsum. vm_compute in Hrun. injection Hrun as _ <-.
      vm_compute. reflexivity.
  - vm_compute in Hrun. discriminate.
Defined.


Lemma idle_epoch_witness :
  exists fuel f',
    @epoch Samples.node (Samples.cfg false false 2) fuel (Samples.entering 3)
    = Some (Py.Ok tt, f').
Proof.
  apply (@idle_epoch Samples.node (Samples.cfg false false 2) (Samples.entering 3)).
  - reflexivity.
  - reflexivity.
  - vm_compute. apply list_elem_of_here.
  - exists 3%nat. intros m Hm. cbn. lia.
Defined.

Lemma unregistered_hotkey_epoch_witness :
  exists m f',
    @epoch Samples.stranger (Samples.cfg true true 2) 5 Samples.stranger_entering
    = Some (Py.Raise (Py.Exn Py.ValueError m), f')
    /\ trace (globals f') = [EvNeuronForPubkey]
    /\ ticks (globals f') = 0%nat.
Proof.
  destruct (@unregistered_hotkey_epoch Samples.stranger (Samples.cfg true true 2)
              5%nat Samples.stranger_entering)
    as (m & f' & Hrun & Hglob & Hticks).
  - vm_compute. intros Hin.
    repeat (apply elem_of_cons in Hin as [Hin | Hin]; [discriminate | ]).
    by apply elem_of_nil in Hin.
  - exists m, f'. split; [exact Hrun | ].
    split; [by rewrite Hglob | exact Hticks].
Defined.


Section Forever.
Context `{Collaborators}.

(** More fuel does not change the outcome of a loop that ended. *)
Lemma while_fuel_mono {S} (cond : S -> bool) (body : Py.M S unit)
    (fuel k : nat) (s : S) (x : Py.result unit * S) :
  while_ fuel cond body s = Some x -> while_ (fuel + k) cond body s = Some x.
Proof.
  revert s. induction fuel as [ | fuel IH]; intros s Hrun; [done | ].
  cbn in *. destruct (cond s); [ | done].
  destruct (body s) as [[[] | e] s1]; [by apply IH | done].
Qed.

Lemma epoch_fuel_mono (cfg : config) (fuel k : nat) (f : frame serve_locals)
    (x : Py.result unit * frame serve_locals) :
  epoch cfg fuel f = Some x -> epoch cfg (fuel + k) f = Some x.
Proof.
  unfold epoch, reach_update, train_or_wait.
  destruct (epoch_start cfg f) as [[[] | e] f1]; [ | done].
  destruct (local_train cfg).
  - destruct (while_ fuel in_epoch train_step f1) as [y | ] eqn:Hrun; [ | done].
    by rewrite (while_fuel_mono _ _ fuel k f1 y Hrun).
  - destruct (while_ fuel in_epoch wait_step f1) as [y | ] eqn:Hrun; [ | done].
    by rewrite (while_fuel_mono _ _ fuel k f1 y Hrun).
Qed.

Lemma serve_loop_fuel_mono (cfg : config) (fuel k n : nat)
    (f : frame serve_locals) (x : Py.result unit * frame serve_locals) :
  serve_loop cfg fuel n f = Some x -> serve_loop cfg (fuel + k) n f = Some x.
Proof.
  revert f. induction n as [ | n IH]; intros f Hrun; [done | ].
  cbn in *.
  destruct (epoch cfg fuel f) as [y | ] eqn:Hep; [ | done].
  rewrite (epoch_fuel_mono cfg fuel k f y Hep).
  destruct y as [[[] | e] f1]; [by apply IH | done].
Qed.

Lemma training_epoch_safe (cfg : config) (f : frame serve_locals) (fuel : nat)
    (r : Py.result unit) (f' : frame serve_locals) :
  local_train cfg = true ->
  0 <= blocks_per_epoch cfg ->
  hotkey ∈ hotkeys metagraph ->
  epoch cfg fuel f = Some (r, f') -> r = Py.Ok tt.
Proof.
  intros Hlocal Hbpe Hreg Hep. unfold epoch in Hep.
  destruct (reach_update cfg fuel f) as [[r2 f2] | ] eqn:Hrun; [ | done].
  destruct (reach_update_training cfg f fuel r2 f2 Hlocal Hreg Hrun)
    as (-> & (He & Hit & Hlo & Hb & Hc) & _ & Hout).
  unfold in_epoch in Hout. rewrite He in Hout.
  assert (Hone : 0 < iteration (locals f2)).
  { destruct (Z.eq_dec (iteration (locals f2)) 0) as [Hz | Hnz]; [ | lia].
    rewrite (Hc Hz) in Hout. lia. }
  destruct (losses (locals f2)) as [total | ] eqn:Htotal;
    [ | by destruct (Hlo Hone)].
  destruct (finish_epoch_after_training cfg f2 total Hlocal Hone Htotal)
    as (f'' & Hfin & _).
  rewrite Hfin in Hep. by injection Hep as <- _.
Qed.

Lemma training_epoch_ends (cfg : config) (f : frame serve_locals) :
  local_train cfg = true ->
  0 <= blocks_per_epoch cfg ->
  hotkey ∈ hotkeys metagraph ->
  (exists n, forall m, (n <= m)%nat ->
     clock (ticks (globals f)) + blocks_per_epoch cfg < clock m) ->
  exists fuel f', epoch cfg fuel f = Some (Py.Ok tt, f').
Proof.
  intros Hlocal Hbpe Hreg Hpast.
  destruct (reach_update_training_ends cfg f Hlocal Hreg Hpast)
    as (fuel & f2 & Hrun).
  destruct (epoch cfg fuel f) as [[r f'] | ] eqn:Hep.
  - rewrite (training_epoch_safe cfg f fuel r f' Hlocal Hbpe Hreg Hep) in Hep.
    by exists fuel, f'.
  - unfold epoch in Hep. by rewrite Hrun in Hep.
Qed.

(** X23: [serve] on a node that trains locally, with [blocks_per_epoch]
    not negative, on a chain whose block height grows past every bound:
    for every number of turns the loop of line 281 makes them all, and no
    turn raises. *)
Theorem training_node_runs_forever
    (cfg : config) (n : nat) (f : frame serve_locals) :
  local_train cfg = true ->
  0 <= blocks_per_epoch cfg ->
  hotkey ∈ hotkeys metagraph ->
  (forall b, exists k, forall m, (k <= m)%nat -> b < clock m) ->
  (exists fuel f', serve_loop cfg fuel n f = Some (Py.Ok tt, f'))
  /\ (forall fuel r f', serve_loop cfg fuel n f = Some (r, f') -> r = Py.Ok tt).
Proof.
  intros Hlocal Hbpe Hreg Hgrows. split.
  - revert f. induction n as [ | n IH]; intros f.
    + by exists 0%nat, f.
    + destruct (training_epoch_ends cfg f Hlocal Hbpe Hreg (Hgrows _))
        as (fuel1 & f1 & Hep).
      destruct (IH f1) as (fuel2 & f' & Hrest).
      exists (fuel1 + fuel2)%nat, f'. cbn.
      rewrite (epoch_fuel_mono cfg fuel1 fuel2 f _ Hep).
      rewrite Nat.add_comm. by apply serve_loop_fuel_mono.
  - revert f. induction n as [ | n IH]; intros f fuel r f' Hrun.
    + cbn in Hrun. by injection Hrun as <- _.
    + cbn in Hrun.
      destruct (epoch cfg fuel f) as [[r1 f1] | ] eqn:Hep; [ | done].
      rewrite (training_epoch_safe cfg f fuel r1 f1 Hlocal Hbpe Hreg Hep) in Hrun.
      by apply (IH f1 fuel r f').
Qed.

End Forever.

Lemma training_node_runs_forever_witness :
  exists fuel f',
    @serve_loop Samples.node (Samples.cfg true true 2) fuel 3 (Samples.entering 0)
    = Some (Py.Ok tt, f').
Proof.
  apply (@training_node_runs_forever Samples.node (Samples.cfg true true 2) 3%nat
           (Samples.entering 0)).
  - reflexivity.
  - cbn. lia.
  - vm_compute. apply list_elem_of_here.
  - intros b. exists (Z.to_nat b). intros m Hm.
    change (b < 10 + Z.of_nat m). lia.
Defined.

End RunSpec.
